(** * Bank customer analytics: dashboard.py and export_views.py

    A shallow embedding of the two entry points of the repository, the
    Streamlit dashboard and the batch CSV exporter, together with the
    properties their specification states about them.

    The Python code is written in a small monad that threads the state of
    the outside world (the database file, the file system, the open
    connections, Streamlit's cache) and records what the program does to it
    (connections, queries, printed lines, rendered elements).  Exceptions
    are outcomes of that monad, and [try]/[except] is a combinator on it. *)

From Stdlib Require Import ZArith String Ascii List Lia.
From stdpp Require Import base gmap strings list pretty.

Open Scope string_scope.
Open Scope Z_scope.
Open Scope list_scope.

(** ** Python values and exceptions *)

(** A finite binary floating-point number [mant * 2 ^ expo].  Every finite
    double is of this form, and the formatting below is defined on this
    exact value. *)
Record pyfloat := PyFloat { mant : Z; expo : Z }.

(** A cell of a query result, as [pd.read_sql_query] hands it over from
    SQLite: INTEGER, REAL, TEXT or NULL. *)
Inductive value :=
| VInt (n : Z)
| VFloat (x : pyfloat)
| VText (s : string)
| VNull.

(** The exceptions that derive from [Exception]. *)
Inductive fault :=
| OperationalError (msg : string)   (* sqlite3.OperationalError *)
| DatabaseError (msg : string)      (* pandas.errors.DatabaseError *)
| FileNotFoundError (msg : string)
| OtherError (cls msg : string).    (* KeyError, ValueError, OSError, ... *)

(** What a [raise] can carry.  Streamlit's [st.stop()] raises a
    [StopException], which derives from [BaseException] only: no
    [except Exception] clause catches it. *)
Inductive exn :=
| Fault (f : fault)
| StopException.

(** [str(e)] *)
Definition str (f : fault) : string :=
  match f with
  | OperationalError m | DatabaseError m | FileNotFoundError m
  | OtherError _ m => m
  end.

(** The classes named in the [except] clauses of the two programs. *)
Inductive exn_class := cls_OperationalError | cls_FileNotFoundError | cls_Exception.

(** [isinstance(e, c)], with the exception as [except c as e] binds it. *)
Definition isinstance (e : exn) (c : exn_class) : option fault :=
  match c, e with
  | cls_Exception, Fault f => Some f
  | cls_OperationalError, Fault (OperationalError m) => Some (OperationalError m)
  | cls_FileNotFoundError, Fault (FileNotFoundError m) => Some (FileNotFoundError m)
  | _, _ => None
  end.

(** ** Format specifications of f-strings *)

Definition nl : string := String "010" EmptyString.

(** ["=" * 70] *)
Fixpoint str_mul (s : string) (n : nat) : string :=
  match n with
  | O => ""
  | S k => s +:+ str_mul s k
  end.

(** [{s:30s}]: left-aligned in a field of the given width, never cut. *)
Definition ljust (width : nat) (s : string) : string :=
  s +:+ str_mul " " (width - String.length s).

(** [{n:3d}]: right-aligned in a field of the given width. *)
Definition rjust (width : nat) (s : string) : string :=
  str_mul " " (width - String.length s) +:+ s.

Definition zfill (width : nat) (s : string) : string :=
  str_mul "0" (width - String.length s) +:+ s.

(** The thousands separator of the [,] option: the digits are grouped in
    threes from the right. *)
Fixpoint group3_rev (ds : list ascii) (k : nat) : list ascii :=
  match ds with
  | [] => []
  | d :: rest =>
      match k, rest with
      | O, _ :: _ => d :: "," %char :: group3_rev rest 2
      | O, [] => [d]
      | S k', _ => d :: group3_rev rest k'
      end
  end.

Definition group3 (digits : string) : string :=
  string_of_list_ascii
    (rev (group3_rev (rev (list_ascii_of_string digits)) 2)).

Definition sign_of (negative : bool) : string := if negative then "-" else "".

(** [{n:,}] and [{n:d}] on an integer. *)
Definition format_int (comma : bool) (n : Z) : string :=
  let digits := pretty (Z.abs n) in
  sign_of (n <? 0) +:+ (if comma then group3 digits else digits).

(** [x * 10 ^ prec] rounded to the nearest integer, ties to the even one:
    [float.__format__] rounds the exact binary value correctly. *)
Definition round_half_even (num den : Z) : Z :=
  let q := num / den in
  let r := num mod den in
  match 2 * r ?= den with
  | Lt => q
  | Gt => q + 1
  | Eq => if Z.even q then q else q + 1
  end.

Definition scaled (x : pyfloat) (prec : nat) : Z :=
  let m := Z.abs (mant x) * 10 ^ Z.of_nat prec in
  if 0 <=? expo x then m * 2 ^ expo x
  else round_half_even m (2 ^ (- expo x)).

(** [{x:.1f}], [{x:,.2f}], [{x:,.0f}] on a float. *)
Definition format_float (comma : bool) (prec : nat) (x : pyfloat) : string :=
  let r := scaled x prec in
  let p := 10 ^ Z.of_nat prec in
  let ip := pretty (r / p) in
  sign_of (mant x <? 0) +:+ (if comma then group3 ip else ip) +:+
  match prec with
  | O => ""
  | _ => "." +:+ zfill prec (pretty (r mod p))
  end.

(** [float(n)]: an integer of more than 53 bits is rounded to the nearest
    double, ties to even. *)
Definition float_of_int (n : Z) : pyfloat :=
  let k := Z.log2 (Z.abs n) + 1 - 53 in
  if k <=? 0 then PyFloat n 0
  else PyFloat (Z.sgn n * round_half_even (Z.abs n) (2 ^ k)) k.

(** A format specification with presentation type [f]: [comma] is the [,]
    option, [prec] the precision. *)
Definition format_f (comma : bool) (prec : nat) (v : value) : fault + string :=
  match v with
  | VInt n => inr (format_float comma prec (float_of_int n))
  | VFloat x => inr (format_float comma prec x)
  | VText _ =>
      inl (OtherError "ValueError"
             "Unknown format code 'f' for object of type 'str'")
  | VNull =>
      inl (OtherError "TypeError"
             "unsupported format string passed to NoneType.__format__")
  end.

(** Decimal literals of the source and of the specification. *)
Definition float_7_25 : pyfloat := PyFloat 29 (-2).          (* 7.25 *)
Definition float_1234_5 : pyfloat := PyFloat 2469 (-1).      (* 1234.5 *)

(** ** Query results *)

(** A [pandas.DataFrame] as the two programs use it: ordered named columns
    and ordered rows, each row holding one cell per column. *)
Record Table := DataFrame { columns : list string; rows : list (list value) }.

(** [pd.DataFrame()] *)
Definition empty_frame : Table := DataFrame [] [].

(** [df.empty]: some axis has length zero. *)
Definition is_empty (df : Table) : bool :=
  match columns df, rows df with
  | [], _ | _, [] => true
  | _, _ => false
  end.

(** [len(df)] *)
Definition len (df : Table) : nat := length (rows df).

Fixpoint index_of (name : string) (names : list string) : option nat :=
  match names with
  | [] => None
  | n :: rest =>
      if String.eqb name n then Some O else S <$> index_of name rest
  end.

Definition has_columns (df : Table) (names : list string) : bool :=
  forallb (fun n => bool_decide (is_Some (index_of n (columns df)))) names.

(** [df[name].iloc[0]] on a frame whose column labels are distinct, as the
    column labels of a view are. *)
Definition first_cell (df : Table) (name : string) : fault + value :=
  match index_of name (columns df) with
  | None => inl (OtherError "KeyError" ("'" +:+ name +:+ "'"))
  | Some i =>
      match rows df with
      | [] => inl (OtherError "IndexError"
                     "single positional indexer is out-of-bounds")
      | r :: _ => inr (default VNull (r !! i))
      end
  end.

(** ** What the programs render and do *)

(** A Plotly figure, up to its styling: the kind of chart, its title and
    the frame it draws. *)
Record figure := Figure { kind : string; fig_title : string; fig_data : Table }.

(** The Streamlit calls of dashboard.py. *)
Inductive element :=
| st_set_page_config (page_title layout : string)
| st_title (body : string)
| st_markdown (body : string)
| st_sidebar_header (body : string)
| st_header (body : string)
| st_subheader (body : string)
| st_error (body : string)
| st_info (body : string)
| st_columns (n : nat)
| st_tabs (labels : list string)
| st_metric (label val : string)
| st_plotly_chart (fig : figure)
| st_dataframe (df : Table)
| st_selectbox (label : string) (options : list string)
| st_download_button (label data file_name mime : string)
| st_exception (f : fault).   (* the runner's box for an uncaught exception *)

(** A panel is a chart or a table rendered from a view's result; the KPI
    metrics are counted with them. *)
Definition is_panel (e : element) : bool :=
  match e with
  | st_metric _ _ | st_plotly_chart _ | st_dataframe _
  | st_download_button _ _ _ _ => true
  | _ => false
  end.

(** The diagnostics of the dashboard are its [st.error] banners. *)
Definition is_error (e : element) : bool :=
  match e with
  | st_error _ => true
  | _ => false
  end.

(** What a run does to the outside world, in the order it does it. *)
Inductive event :=
| Connect (c : nat) (database : string)   (* sqlite3.connect returned c *)
| Query (c : nat) (sql : string)          (* pd.read_sql_query(sql, c) *)
| Close (c : nat)                         (* c.close() *)
| Mkdir (path : string)
| WriteFile (path content : string)
| Print (line : string)
| Show (e : element).

(** The elements a trace rendered, the lines it printed, and what it did to
    database connections. *)
Definition shown (es : list event) : list element :=
  omap (fun e => match e with Show x => Some x | _ => None end) es.

Definition printed (es : list event) : list string :=
  omap (fun e => match e with Print l => Some l | _ => None end) es.

Definition is_conn_event (e : event) : bool :=
  match e with
  | Connect _ _ | Query _ _ | Close _ => true
  | _ => false
  end.

Definition conn_events (es : list event) : list event := List.filter is_conn_event es.

(** ** The outside world *)

(** What the source does not determine: the platform, and the faults the
    libraries may raise.  A field that is [None] lets the operation through. *)
Record Env := {
  cwd : string;                              (* os.getcwd() *)
  connect_fault : option fault;              (* sqlite3.connect fails *)
  query_fault : string -> option fault;      (* any other fault of a query *)
  no_such_table : string -> fault;           (* the view is not in the schema *)
  mkdir_fault : option fault;
  write_fault : string -> option fault;      (* by path *)
  written_before_fault : string -> option nat;
                                             (* what a failed write leaves:
                                                the file as it was, or the
                                                first n characters *)
  to_csv : Table -> string;                  (* DataFrame.to_csv(index=False) *)
  chart_fault : string -> list string -> Table -> option fault;
                                             (* Plotly rejects the frame *)
  not_in_index : list string -> Table -> fault
                                             (* df[[...]] misses a column *)
}.

(** What a run can change. *)
Record State := {
  db : option (gmap string Table);   (* the views of bank.db; None: no file *)
  dirs : gset string;
  files : gmap string string;
  open_conns : gset nat;
  next_conn : nat;
  cache : gmap string (Table * list element)  (* of @st.cache_data *)
}.

(** ** The monad of Python statements *)

Inductive outcome (A : Type) :=
| Returned (a : A)
| Raised (e : exn).
Arguments Returned {A} a.
Arguments Raised {A} e.

Record run (A : Type) := Run { res : outcome A; final : State; evs : list event }.
Arguments Run {A} res final evs.
Arguments res {A} r.
Arguments final {A} r.
Arguments evs {A} r.

Definition M (A : Type) : Type := State -> run A.

Definition ret {A} (a : A) : M A := fun s => Run (Returned a) s [].

Definition raise {A} (e : exn) : M A := fun s => Run (Raised e) s [].

(** The run [r], after the events [es]. *)
Definition after {A} (es : list event) (r : run A) : run A :=
  Run (res r) (final r) (es ++ evs r).

(** [k] runs after [r], if [r] returned. *)
Definition and_then {A B} (r : run A) (k : A -> M B) : run B :=
  match res r with
  | Returned a => after (evs r) (k a (final r))
  | Raised e => Run (Raised e) (final r) (evs r)
  end.

Definition bind {A B} (m : M A) (k : A -> M B) : M B :=
  fun s => and_then (m s) k.

#[global] Instance M_ret : MRet M := @ret.
#[global] Instance M_bind : MBind M := fun A B k m => bind m k.

(** The first [except] clause whose class the exception is an instance of. *)
Fixpoint find_clause {A} (e : exn) (clauses : list (exn_class * (fault -> M A)))
  : option (M A) :=
  match clauses with
  | [] => None
  | (c, h) :: rest =>
      match isinstance e c with
      | Some f => Some (h f)
      | None => find_clause e rest
      end
  end.

(** The clauses handle what [r] raised, if one of them matches. *)
Definition or_else {A} (r : run A) (clauses : list (exn_class * (fault -> M A)))
  : run A :=
  match res r with
  | Returned _ => r
  | Raised e =>
      match find_clause e clauses with
      | Some h => after (evs r) (h (final r))
      | None => r
      end
  end.

(** [try: m except c1 as e: h1 e except c2 as e: h2 e ...] *)
Definition try_except {A} (m : M A) (clauses : list (exn_class * (fault -> M A)))
  : M A :=
  fun s => or_else (m s) clauses.

Definition emit (e : event) : M unit := fun s => Run (Returned tt) s [e].

Definition get : M State := fun s => Run (Returned s) s [].

Definition put (s : State) : M unit := fun _ => Run (Returned tt) s [].

Definition lift {A} (x : fault + A) : M A :=
  match x with
  | inl f => raise (Fault f)
  | inr a => ret a
  end.

(** [for x in xs: acc = body x acc] *)
Fixpoint for_each {X A} (xs : list X) (body : X -> A -> M A) (acc : A) : M A :=
  match xs with
  | [] => ret acc
  | x :: rest => acc' ← body x acc; for_each rest body acc'
  end.

Definition print (line : string) : M unit := emit (Print line).

Definition st (e : element) : M unit := emit (Show e).

(** [st.stop()] *)
Definition st_stop {A} : M A := raise StopException.

(** ** Strings and paths *)

Fixpoint remove_prefix (p s : string) : option string :=
  match p, s with
  | EmptyString, _ => Some s
  | String a p', String b s' =>
      if Ascii.eqb a b then remove_prefix p' s' else None
  | String _ _, EmptyString => None
  end.

Definition starts_with (p s : string) : bool :=
  bool_decide (is_Some (remove_prefix p s)).

Fixpoint has_slash (s : string) : bool :=
  match s with
  | EmptyString => false
  | String a rest => Ascii.eqb a "/" || has_slash rest
  end.

(** [os.path.dirname] of a relative path: what precedes its last slash. *)
Fixpoint dirname (path : string) : string :=
  match path with
  | EmptyString => ""
  | String a rest => if has_slash rest then String a (dirname rest) else ""
  end.

Fixpoint ends_with_slash (s : string) : bool :=
  match s with
  | EmptyString => false
  | String a EmptyString => Ascii.eqb a "/"
  | String _ rest => ends_with_slash rest
  end.

(** [os.path.join(a, b)] on POSIX. *)
Definition os_path_join (a b : string) : string :=
  if starts_with "/" b then b
  else if String.eqb a "" || ends_with_slash a then a +:+ b
  else a +:+ "/" +:+ b.

(** [int(s)] on text: surrounding blanks, a sign, then decimal digits that
    single underscores may separate. *)
Definition is_blank (c : ascii) : bool :=
  let n := nat_of_ascii c in ((9 <=? n) && (n <=? 13) || (n =? 32))%nat.

Definition digit_of (c : ascii) : option Z :=
  let n := nat_of_ascii c in
  if ((48 <=? n) && (n <=? 57))%nat then Some (Z.of_nat n - 48) else None.

Fixpoint drop_blanks (cs : list ascii) : list ascii :=
  match cs with
  | c :: rest => if is_blank c then drop_blanks rest else cs
  | [] => []
  end.

Fixpoint parse_digits (cs : list ascii) (acc : Z) (after_digit : bool) : option Z :=
  match cs with
  | [] => if after_digit then Some acc else None
  | c :: rest =>
      match digit_of c with
      | Some d => parse_digits rest (10 * acc + d) true
      | None =>
          if Ascii.eqb c "_" && after_digit then parse_digits rest acc false
          else None
      end
  end.

Definition parse_int (s : string) : option Z :=
  let cs := rev (drop_blanks (rev (drop_blanks (list_ascii_of_string s)))) in
  match cs with
  | "-"%char :: ds => Z.opp <$> parse_digits ds 0 false
  | "+"%char :: ds => parse_digits ds 0 false
  | ds => parse_digits ds 0 false
  end.

(** [int(v)].  A text is read as ASCII: the digits and blanks of other
    scripts, which Python accepts too, are not modelled, so that a result on
    a [VText] speaks for ASCII text only. *)
Definition int_of (v : value) : fault + Z :=
  match v with
  | VInt n => inr n
  | VFloat x =>
      inr (if 0 <=? expo x then mant x * 2 ^ expo x
           else Z.quot (mant x) (2 ^ (- expo x)))
  | VText s =>
      match parse_int s with
      | Some n => inr n
      | None =>
          inl (OtherError "ValueError"
                 ("invalid literal for int() with base 10: '" +:+ s +:+ "'"))
      end
  | VNull =>
      inl (OtherError "TypeError"
             "int() argument must be a string, a bytes-like object or a real number, not 'NoneType'")
  end.

(** ** State updates *)

Definition set_db (d : option (gmap string Table)) (s : State) : State :=
  {| db := d; dirs := dirs s; files := files s; open_conns := open_conns s;
     next_conn := next_conn s; cache := cache s |}.

Definition set_dirs (d : gset string) (s : State) : State :=
  {| db := db s; dirs := d; files := files s; open_conns := open_conns s;
     next_conn := next_conn s; cache := cache s |}.

Definition set_files (f : gmap string string) (s : State) : State :=
  {| db := db s; dirs := dirs s; files := f; open_conns := open_conns s;
     next_conn := next_conn s; cache := cache s |}.

Definition set_conns (o : gset nat) (n : nat) (s : State) : State :=
  {| db := db s; dirs := dirs s; files := files s; open_conns := o;
     next_conn := n; cache := cache s |}.

Definition set_cache (c : gmap string (Table * list element)) (s : State) : State :=
  {| db := db s; dirs := dirs s; files := files s; open_conns := open_conns s;
     next_conn := next_conn s; cache := c |}.

(** ** The libraries *)

(** The path of the one database file of the model, which both programs
    name in their [DB_FILE]. *)
Definition database_path : string := "bank.db".

(** The state after [sqlite3.connect] opened a connection: the file exists
    from then on, and the connection has the next free number. *)
Definition connected (s : State) : State :=
  set_db (Some (default ∅ (db s)))
         (set_conns ({[next_conn s]} ∪ open_conns s) (S (next_conn s)) s).

Definition closed (c : nat) (s : State) : State :=
  set_conns (open_conns s ∖ {[c]}) (next_conn s) s.

Section Libraries.
Variable E : Env.

(** What the database answers when a view is selected from. *)
Definition view_answer (views : option (gmap string Table)) (view : string)
  : fault + Table :=
  match query_fault E view with
  | Some f => inl f
  | None =>
      match views ≫= (fun m => m !! view) with
      | Some df => inr df
      | None => inl (no_such_table E view)
      end
  end.

(** [os.path.exists(path)]: the database file, a directory or a file. *)
Definition os_path_exists (path : string) : M bool :=
  s ← get;
  ret (if String.eqb path database_path then bool_decide (is_Some (db s))
       else bool_decide (path ∈ dirs s)
            || bool_decide (is_Some (files s !! path))).

(** [os.path.abspath(path)] of a relative path without dots. *)
Definition os_path_abspath (path : string) : string :=
  os_path_join (cwd E) path.

(** [sqlite3.connect(database)] on the database file of the model: opens
    the file, creating an empty database when there is none, and returns a
    fresh connection. *)
Definition sqlite3_connect (database : string) : M nat :=
  match connect_fault E with
  | Some f => raise (Fault f)
  | None =>
      s ← get;
      put (connected s);;
      emit (Connect (next_conn s) database);;
      ret (next_conn s)
  end.

(** [conn.close()]: closing a connection does not fail. *)
Definition conn_close (c : nat) : M unit :=
  s ← get;
  put (closed c s);;
  emit (Close c).

(** [pd.read_sql_query(sql, conn)] for the queries the programs compose,
    [SELECT * FROM <view>]. *)
Definition read_sql_query (sql : string) (c : nat) : M Table :=
  emit (Query c sql);;
  s ← get;
  if bool_decide (c ∈ open_conns s) then
    match remove_prefix "SELECT * FROM " sql with
    | Some view => lift (view_answer (db s) view)
    | None => raise (Fault (OperationalError "syntax error"))
    end
  else
    raise (Fault (OtherError "ProgrammingError"
                    "Cannot operate on a closed database.")).

(** [Path(path).mkdir(exist_ok=True)] *)
Definition mkdir_exist_ok (path : string) : M unit :=
  s ← get;
  if bool_decide (path ∈ dirs s) then ret tt
  else if bool_decide (is_Some (files s !! path)) then
    raise (Fault (OtherError "FileExistsError"
                    ("[Errno 17] File exists: '" +:+ path +:+ "'")))
  else
    match mkdir_fault E with
    | Some f => raise (Fault f)
    | None => put (set_dirs ({[path]} ∪ dirs s) s);; emit (Mkdir path)
    end.

(** [df.to_csv(path, index=False)].  pandas checks the parent directory,
    opens the file for writing, which creates or truncates it, and then
    serializes the frame into it: a fault of the open leaves the file as it
    was, a fault after it leaves the part of the serialization that had
    been written.  [WriteFile] records a write that completed. *)
Definition to_csv_file (df : Table) (path : string) : M unit :=
  s ← get;
  if negb (String.eqb (dirname path) "")
     && negb (bool_decide (dirname path ∈ dirs s)) then
    raise (Fault (OtherError "OSError"
                    ("Cannot save file into a non-existent directory: '"
                     +:+ dirname path +:+ "'")))
  else
    match write_fault E path with
    | Some f =>
        match written_before_fault E path with
        | Some n =>
            put (set_files (<[path := String.substring 0 n (to_csv E df)]>
                              (files s)) s)
        | None => ret tt
        end;;
        raise (Fault f)
    | None =>
        put (set_files (<[path := to_csv E df]> (files s)) s);;
        emit (WriteFile path (to_csv E df))
    end.
End Libraries.

(** ** dashboard.py *)

Module dashboard.
Section Program.
Variable E : Env.

Definition DB_FILE : string := "bank.db".

(** The body of [load_view], without its decorator. *)
Definition load_view_body (view_name : string) : M Table :=
  try_except
    (conn ← sqlite3_connect E DB_FILE;
     df ← read_sql_query E ("SELECT * FROM " +:+ view_name) conn;
     conn_close conn;;
     ret df)
    [(cls_Exception, fun e =>
        st (st_error ("Error loading " +:+ view_name +:+ ": " +:+ str e));;
        ret empty_frame)].

(** [@st.cache_data]: the value a call returned is stored under the
    call's argument, with the elements the call rendered; a later call
    with the same argument returns the stored value and renders the stored
    elements again, without running the body.  A call that raises stores
    nothing. *)
Definition cache_data (f : string -> M Table) (arg : string) : M Table :=
  fun s =>
    match cache s !! arg with
    | Some (df, els) => Run (Returned df) s (Show <$> els)
    | None =>
        let r := f arg s in
        match res r with
        | Returned df =>
            Run (Returned df)
                (set_cache (<[arg := (df, shown (evs r))]> (cache (final r)))
                           (final r))
                (evs r)
        | Raised _ => r
        end
    end.

Definition load_view : string -> M Table := cache_data load_view_body.

(** [px.bar], [px.pie], [px.line] and the [go.Figure] of the branch
    overview, on the columns they are given. *)
Definition plot (kind title : string) (cols : list string) (df : Table)
  : M figure :=
  match chart_fault E kind cols df with
  | Some f => raise (Fault f)
  | None => ret (Figure kind title df)
  end.

(** [df[[c1, ..., cn]]] *)
Definition project (df : Table) (cols : list string) : M Table :=
  if has_columns df cols then
    ret (DataFrame cols
           (map (fun r =>
                   map (fun c => default VNull
                                   (index_of c (columns df) ≫= (fun i => r !! i)))
                       cols)
                (rows df)))
  else raise (Fault (not_in_index E cols df)).

(** [df[name]] *)
Definition column (df : Table) (name : string) : M unit :=
  if has_columns df [name] then ret tt
  else raise (Fault (OtherError "KeyError" ("'" +:+ name +:+ "'"))).

(** A panel that draws one chart of a view, when the view has data. *)
Definition chart_panel (view kind title : string) (cols : list string) : M unit :=
  df ← load_view view;
  if negb (is_empty df) then
    fig ← plot kind title cols df;
    st (st_plotly_chart fig)
  else ret tt.

Definition kpi_strip (kpis_df : Table) : M unit :=
  st (st_header "📈 Key Performance Indicators");;
  st (st_columns 4);;
  v ← lift (first_cell kpis_df "total_customers");
  total_customers ← lift (int_of v);
  st (st_metric "Total Customers" (format_int true total_customers));;
  churn_rate ← lift (first_cell kpis_df "overall_churn_rate_pct");
  shown_rate ← lift (format_f false 1 churn_rate);
  st (st_metric "Overall Churn Rate" (shown_rate +:+ "%"));;
  avg_balance ← lift (first_cell kpis_df "avg_balance");
  shown_avg ← lift (format_f true 2 avg_balance);
  st (st_metric "Average Balance" ("$" +:+ shown_avg));;
  total_balance ← lift (first_cell kpis_df "total_balance");
  shown_total ← lift (format_f true 0 total_balance);
  st (st_metric "Total Balance" ("$" +:+ shown_total)).

Definition tab1 : M unit :=
  st (st_header "Customer Churn Analysis");;
  st (st_columns 2);;
  st (st_subheader "Churn Rate by Branch");;
  chart_panel "churn_by_branch" "bar" "Churn Rate by Branch"
    ["branch"; "churn_rate_pct"];;
  st (st_subheader "Churn Rate by Account Type");;
  chart_panel "churn_by_account_type" "pie"
    "Churn Rate Distribution by Account Type"
    ["churn_rate_pct"; "account_type"];;
  st (st_subheader "Churn by Income Band");;
  chart_panel "income_band_churn" "bar" "Churn Rate by Income Band"
    ["income_band"; "churn_rate_pct"].

Definition tab2 : M unit :=
  st (st_header "Balance & Financial Analysis");;
  st (st_columns 2);;
  st (st_subheader "Average Balance by Branch");;
  chart_panel "avg_balance_by_branch" "bar" "Average Balance by Branch"
    ["branch"; "avg_balance"];;
  st (st_subheader "Average Balance by Account Type");;
  chart_panel "avg_balance_by_account_type" "bar"
    "Average Balance by Account Type" ["account_type"; "avg_balance"];;
  st (st_subheader "Balance by Customer Tenure");;
  chart_panel "balance_by_tenure" "line"
    "Average Balance by Customer Tenure" ["tenure_group"; "avg_balance"].

Definition tab3 : M unit :=
  st (st_header "Customer Segmentation");;
  st (st_columns 2);;
  st (st_subheader "Account Type Distribution");;
  chart_panel "account_type_distribution" "pie"
    "Customer Distribution by Account Type" ["num_customers"; "account_type"];;
  st (st_subheader "Branch Distribution");;
  chart_panel "branch_distribution" "pie" "Customer Distribution by Branch"
    ["num_customers"; "branch"];;
  st (st_subheader "High-Value Customers");;
  high_value ← load_view "high_value_customers";
  if negb (is_empty high_value) then
    sel ← project high_value
            ["customer_id"; "branch"; "account_type"; "balance"; "income";
             "tenure_years"];
    st (st_dataframe sel)
  else ret tt.

Definition tab4 : M unit :=
  st (st_header "Branch Performance Overview");;
  branch_perf ← load_view "branch_performance";
  if negb (is_empty branch_perf) then
    column branch_perf "branch";;
    column branch_perf "churn_rate_pct";;
    column branch_perf "branch";;
    column branch_perf "avg_balance";;
    fig ← plot "bar+scatter"
            "Branch Performance: Churn Rate vs Average Balance"
            ["branch"; "churn_rate_pct"; "avg_balance"] branch_perf;
    st (st_plotly_chart fig);;
    st (st_subheader "Branch Performance Metrics");;
    st (st_dataframe branch_perf)
  else ret tt.

Definition view_options : list (string * string) :=
  [ ("Churn by Branch", "churn_by_branch");
    ("Churn by Account Type", "churn_by_account_type");
    ("Income Band Churn", "income_band_churn");
    ("Average Balance by Branch", "avg_balance_by_branch");
    ("Average Balance by Account Type", "avg_balance_by_account_type");
    ("Balance by Tenure", "balance_by_tenure");
    ("Account Type Distribution", "account_type_distribution");
    ("Branch Distribution", "branch_distribution");
    ("High Value Customers", "high_value_customers");
    ("Overall KPIs", "overall_kpis");
    ("Branch Performance", "branch_performance") ].

Fixpoint lookup_option (label : string) (opts : list (string * string))
  : option string :=
  match opts with
  | [] => None
  | (l, v) :: rest => if String.eqb label l then Some v else lookup_option label rest
  end.

(** [st.selectbox(label, options)]: the option the user picked, the first
    one before any pick. *)
Definition selectbox (picked : string) (label : string) (options : list string)
  : M (option string) :=
  st (st_selectbox label options);;
  ret (if bool_decide (picked ∈ options) then Some picked else head options).

Definition tab5 (picked : string) : M unit :=
  st (st_header "Data Tables");;
  selected_view ← selectbox picked "Select a view to display:"
                    (fst <$> view_options);
  match selected_view ≫= (fun l => lookup_option l view_options) with
  | Some view =>
      df ← load_view view;
      if negb (is_empty df) then
        st (st_dataframe df);;
        st (st_download_button "📥 Download as CSV" (to_csv E df)
              (view +:+ ".csv") "text/csv")
      else ret tt
  | None => ret tt
  end.

Definition report (picked : string) : M unit :=
  kpis_df ← load_view "overall_kpis";
  (if is_empty kpis_df then
     st (st_error "⚠️ No data found. Please ensure views are created in the database.");;
     st_stop
   else ret tt);;
  kpi_strip kpis_df;;
  st (st_markdown "---");;
  st (st_tabs ["🔴 Churn Analysis"; "💰 Balance Analysis";
               "👥 Customer Segmentation"; "🏢 Branch Performance";
               "📋 Data Tables"]);;
  tab1;; tab2;; tab3;; tab4;; tab5 picked;;
  st (st_markdown "---");;
  st (st_markdown
        "<div style='text-align: center; color: gray;'>Bank Customer Analytics Dashboard | Built with Streamlit</div>").

(** One run of the script, top to bottom; [picked] is the label chosen in
    the view picker. *)
Definition script (picked : string) : M unit :=
  st (st_set_page_config "Bank Customer Analytics" "wide");;
  st (st_title "🏦 Bank Customer Analytics Dashboard");;
  st (st_markdown "---");;
  st (st_sidebar_header "📊 Filters & Options");;
  try_except (report picked)
    [ (cls_OperationalError, fun e =>
         st (st_error ("⚠️ Database error: " +:+ str e));;
         st (st_info "💡 Make sure you've created the views by running views.sql first!"));
      (cls_FileNotFoundError, fun _ =>
         st (st_error "⚠️ Database file 'bank.db' not found!");;
         st (st_info "💡 Please ensure bank.db exists in the current directory."));
      (cls_Exception, fun e =>
         st (st_error ("⚠️ An error occurred: " +:+ str e))) ].

(** Streamlit's script runner: [st.stop()] ends the run silently, an
    uncaught exception ends it with an exception box. *)
Definition run_script (picked : string) : M unit :=
  fun s =>
    let r := script picked s in
    match res r with
    | Returned _ | Raised StopException => Run (Returned tt) (final r) (evs r)
    | Raised (Fault f) =>
        Run (Returned tt) (final r) (evs r ++ [Show (st_exception f)])
    end.

(** An interactive session: the script runs once when the page opens and
    once more after each interaction, on the state the previous run left. *)
Fixpoint session (picks : list string) : M unit :=
  match picks with
  | [] => ret tt
  | p :: rest => run_script p;; session rest
  end.
End Program.
End dashboard.

(** ** export_views.py *)

Module export_views.
Section Program.
Variable E : Env.

Definition DB_FILE : string := "bank.db".
Definition RESULTS_DIR : string := "results".

Definition VIEWS : list string :=
  [ "churn_by_branch";
    "churn_by_account_type";
    "income_band_churn";
    "avg_balance_by_branch";
    "avg_balance_by_account_type";
    "balance_by_tenure";
    "account_type_distribution";
    "branch_distribution";
    "high_value_customers";
    "overall_kpis";
    "branch_performance" ].

Definition create_results_folder : M unit :=
  mkdir_exist_ok E RESULTS_DIR;;
  print ("[OK] Results folder '" +:+ RESULTS_DIR +:+ "' ready").

Definition csv_path_of (view_name : string) : string :=
  os_path_join RESULTS_DIR (view_name +:+ ".csv").

Definition ok_line (view_name : string) (num_rows : nat) : string :=
  "  [OK] Exported " +:+ ljust 30 view_name +:+ " -> " +:+
  rjust 3 (pretty num_rows) +:+ " rows -> " +:+ csv_path_of view_name.

Definition export_view_to_csv (conn : nat) (view_name : string) : M bool :=
  try_except
    (df ← read_sql_query E ("SELECT * FROM " +:+ view_name) conn;
     let csv_path := csv_path_of view_name in
     to_csv_file E df csv_path;;
     let num_rows := len df in
     print (ok_line view_name num_rows);;
     ret true)
    [ (cls_OperationalError, fun e =>
         print ("  [ERROR] Error exporting " +:+ view_name +:+
                ": View does not exist");;
         print "    Hint: Make sure you've run views.sql first";;
         ret false);
      (cls_Exception, fun e =>
         print ("  [ERROR] Error exporting " +:+ view_name +:+ ": " +:+ str e);;
         ret false) ].

Definition summary_line (success_count : nat) : string :=
  nl +:+ "Summary: " +:+ pretty success_count +:+ "/" +:+
  pretty (length VIEWS) +:+ " views exported successfully".

(** The body of the loop of [main]. *)
Definition export_and_count (conn : nat) (view : string) (success_count : nat)
  : M nat :=
  ok ← export_view_to_csv conn view;
  ret (if ok : bool then S success_count else success_count).

(** The [try] statement of [main]. *)
Definition connect_and_export : M unit :=
  try_except
    (conn ← sqlite3_connect E DB_FILE;
     print ("[OK] Connected to " +:+ DB_FILE);;
     print "";;
     print "Exporting views to CSV...";;
     print (str_mul "-" 70);;
     success_count ← for_each VIEWS (export_and_count conn) O;
     conn_close conn;;
     print (str_mul "-" 70);;
     print (summary_line success_count);;
     print ("CSV files saved to: " +:+ os_path_abspath E RESULTS_DIR +:+ "/");;
     print (str_mul "=" 70))
    [ (cls_Exception, fun e =>
         print ("[ERROR] Error connecting to database: " +:+ str e)) ].

Definition main : M unit :=
  print (str_mul "=" 70);;
  print "Bank Customer Analytics - View Exporter";;
  print (str_mul "=" 70);;
  print "";;
  found ← os_path_exists DB_FILE;
  if negb found then
    print ("[ERROR] Database file '" +:+ DB_FILE +:+ "' not found!");;
    print "  Make sure bank.db exists in the current directory."
  else
    create_results_folder;;
    print "";;
    connect_and_export.
End Program.
End export_views.

(** ** Reading a run *)

(** The query both programs compose for a view. *)
Definition sql_of (view : string) : string := "SELECT * FROM " +:+ view.

(** Querying a view directly: a connection is opened and the view is
    selected from. *)
Definition query (E : Env) (view : string) : M Table :=
  conn ← sqlite3_connect E database_path;
  read_sql_query E (sql_of view) conn.

(** The queries of a trace that select from a given view. *)
Definition is_query_for (view : string) (e : event) : bool :=
  match e with
  | Query _ sql => String.eqb sql (sql_of view)
  | _ => false
  end.

Definition queries_for (view : string) (es : list event) : nat :=
  length (List.filter (is_query_for view) es).

(** The banner of [load_view] for a fault, the banner of the script for an
    empty KPI view, and what the script renders before its [try]. *)
Definition loading_error (view : string) (f : fault) : element :=
  st_error ("Error loading " +:+ view +:+ ": " +:+ str f).

Definition no_data : element :=
  st_error "⚠️ No data found. Please ensure views are created in the database.".

Definition preamble : list element :=
  [ st_set_page_config "Bank Customer Analytics" "wide";
    st_title "🏦 Bank Customer Analytics Dashboard";
    st_markdown "---";
    st_sidebar_header "📊 Filters & Options" ].

(** A computation queries each view at most once when, from any state, it
    leaves cached what was cached, does not query a view that is cached,
    and queries any other view at most once, leaving it cached if it did. *)
Definition query_once {A} (m : M A) : Prop :=
  ∀ s view,
    let r := m s in
    (is_Some (cache s !! view) ->
       is_Some (cache (final r) !! view) ∧ queries_for view (evs r) = O) ∧
    (queries_for view (evs r) = O ∨
     queries_for view (evs r) = 1%nat ∧ is_Some (cache (final r) !! view)).

(** A printed line is a diagnostic when it carries the [[ERROR]] tag, after
    its indentation. *)
Fixpoint lstrip (s : string) : string :=
  match s with
  | String " " rest => lstrip rest
  | _ => s
  end.

Definition error_tagged (line : string) : bool := starts_with "[ERROR]" (lstrip line).

(** The values of the KPI strip, in the order they are rendered. *)
Definition metric_values (es : list event) : list string :=
  omap (fun e => match e with Show (st_metric _ v) => Some v | _ => None end) es.

(** *** One step of the export loop, as a function *)

Section ExportStep.
Variable E : Env.
Variable views : option (gmap string Table).

(** The frame that reaches the file of a view, or the fault that stops it. *)
Definition export_outcome (view : string) : fault + Table :=
  match view_answer E views view with
  | inr df =>
      match write_fault E (export_views.csv_path_of view) with
      | None => inr df
      | Some f => inl f
      end
  | inl f => inl f
  end.

Definition exports (view : string) : bool :=
  match export_outcome view with
  | inr _ => true
  | inl _ => false
  end.

(** The lines the two [except] clauses of [export_view_to_csv] print:
    the error line, which names the view, and the hint of the first
    clause. *)
Definition error_detail (f : fault) : string :=
  match f with
  | OperationalError _ => "View does not exist"
  | _ => str f
  end.

Definition error_line (view : string) (f : fault) : string :=
  "  [ERROR] Error exporting " +:+ view +:+ ": " +:+ error_detail f.

Definition error_lines (view : string) (f : fault) : list string :=
  error_line view f ::
  match f with
  | OperationalError _ => [ "    Hint: Make sure you've run views.sql first" ]
  | _ => []
  end.

Definition export_lines (view : string) : list string :=
  match export_outcome view with
  | inr df => [ export_views.ok_line view (len df) ]
  | inl f => error_lines view f
  end.

Definition export_events (c : nat) (view : string) : list event :=
  Query c (sql_of view) ::
  match export_outcome view with
  | inr df =>
      [ WriteFile (export_views.csv_path_of view) (to_csv E df);
        Print (export_views.ok_line view (len df)) ]
  | inl f => Print <$> error_lines view f
  end.

(** What the export of a view leaves in its file, if it touches it: the
    serialized frame, or the part of it a failed write got to. *)
Definition export_leaves (view : string) : option string :=
  match view_answer E views view with
  | inr df =>
      match write_fault E (export_views.csv_path_of view) with
      | None => Some (to_csv E df)
      | Some _ =>
          (fun n => String.substring 0 n (to_csv E df)) <$>
          written_before_fault E (export_views.csv_path_of view)
      end
  | inl _ => None
  end.

Definition export_file (fs : gmap string string) (view : string)
  : gmap string string :=
  match export_leaves view with
  | Some content => <[export_views.csv_path_of view := content]> fs
  | None => fs
  end.
End ExportStep.

(** The banner [main] prints first, and the lines that close its report. *)
Definition banner : list string :=
  [ str_mul "=" 70; "Bank Customer Analytics - View Exporter"; str_mul "=" 70; "" ].

(** A platform on which no operation fails by itself. *)
Definition no_faults (E : Env) : Prop :=
  connect_fault E = None ∧ mkdir_fault E = None ∧
  (∀ view, query_fault E view = None) ∧ (∀ path, write_fault E path = None).

(** *** Example worlds *)

(** A platform on which nothing fails by itself; a missing view is reported
    the way pandas reports it. *)
Definition healthy : Env :=
  {| cwd := "/home/analyst/bank";
     connect_fault := None;
     query_fault := fun _ => None;
     no_such_table := fun view =>
       DatabaseError ("Execution failed on sql 'SELECT * FROM " +:+ view +:+
                      "': no such table: " +:+ view);
     mkdir_fault := None;
     write_fault := fun _ => None;
     written_before_fault := fun _ => None;
     to_csv := fun df => String.concat "," (columns df) +:+ nl;
     chart_fault := fun _ _ _ => None;
     not_in_index := fun _ _ => OtherError "KeyError" "not in index" |}.

(** The same platform with a driver that lets [sqlite3.OperationalError]
    through. *)
Definition healthy_sqlite : Env :=
  {| cwd := cwd healthy;
     connect_fault := None;
     query_fault := fun _ => None;
     no_such_table := fun view => OperationalError ("no such table: " +:+ view);
     mkdir_fault := None;
     write_fault := fun _ => None;
     written_before_fault := fun _ => None;
     to_csv := to_csv healthy;
     chart_fault := fun _ _ _ => None;
     not_in_index := not_in_index healthy |}.

Definition world (views : option (gmap string Table)) : State :=
  {| db := views; dirs := ∅; files := ∅; open_conns := ∅; next_conn := 0;
     cache := ∅ |}.

(** No bank.db in the current directory. *)
Definition no_database : State := world None.

(** The KPI row of the specification's example. *)
Definition kpi_example : Table :=
  DataFrame
    [ "total_customers"; "overall_churn_rate_pct"; "avg_balance"; "total_balance" ]
    [ [ VInt 12345; VFloat float_7_25; VFloat float_1234_5; VInt 9876543 ] ].

(** The same row when the total comes back as a REAL. *)
Definition kpi_example_real : Table :=
  DataFrame
    [ "total_customers"; "overall_churn_rate_pct"; "avg_balance"; "total_balance" ]
    [ [ VInt 12345; VFloat float_7_25; VFloat float_1234_5;
        VFloat (PyFloat 9876543 0) ] ].

Definition one_row (cols : list string) : Table :=
  DataFrame cols [ map (fun _ => VInt 1) cols ].

(** A database that holds every view of the catalog. *)
Definition all_views : gmap string Table :=
  list_to_map
    (("overall_kpis", kpi_example) ::
     map (fun v => (v, one_row ["branch"; "churn_rate_pct"]))
         export_views.VIEWS).

(** The same database without the view [high_value_customers]. *)
Definition one_view_missing : gmap string Table :=
  delete "high_value_customers" all_views.

(** *** The folder of the exporter *)

(** The fault of [Path(RESULTS_DIR).mkdir(exist_ok=True)] in a state, if it
    has one; the state it leaves when it has none, and what it did. *)
Definition mkdir_fails (E : Env) (s : State) : option fault :=
  if bool_decide (export_views.RESULTS_DIR ∈ dirs s) then None
  else if bool_decide (is_Some (files s !! export_views.RESULTS_DIR)) then
    Some (OtherError "FileExistsError"
            ("[Errno 17] File exists: '" +:+ export_views.RESULTS_DIR +:+ "'"))
  else mkdir_fault E.

Definition made_dir (s : State) : State :=
  if bool_decide (export_views.RESULTS_DIR ∈ dirs s) then s
  else set_dirs ({[export_views.RESULTS_DIR]} ∪ dirs s) s.

Definition mkdir_events (s : State) : list event :=
  if bool_decide (export_views.RESULTS_DIR ∈ dirs s) then []
  else [Mkdir export_views.RESULTS_DIR].

(** The paths a trace wrote to, in order. *)
Definition written (es : list event) : list string :=
  omap (fun e => match e with WriteFile path _ => Some path | _ => None end) es.

(** *** Invariants of a session *)

(** Connections are numbered in the order they are opened: every open
    connection has a number below the next one. *)
Definition conn_fresh (s : State) : Prop :=
  ∀ c, c ∈ open_conns s -> (c < next_conn s)%nat.

(** What the cache of [load_view] holds under a view name: a frame that was
    loaded without a banner, or the empty frame with the banner of the
    fault that made the load fail. *)
Definition cache_ok (s : State) : Prop :=
  ∀ view df els, cache s !! view = Some (df, els) ->
    els = [] ∨ (df = empty_frame ∧ ∃ f, els = [loading_error view f]).

(** What the dashboard does to the outside world: it connects to bank.db,
    selects from views of the catalog, closes connections and renders. *)
Definition dashboard_event (e : event) : Prop :=
  match e with
  | Connect _ database => database = dashboard.DB_FILE
  | Query _ sql => ∃ view, In view export_views.VIEWS ∧ sql = sql_of view
  | Close _ | Show _ => True
  | Mkdir _ | WriteFile _ _ | Print _ => False
  end.

(** [m] keeps the invariant [I] of the state and produces only events that
    satisfy [P]. *)
Definition keeps {A} (I : State -> Prop) (P : event -> Prop) (m : M A) : Prop :=
  ∀ s, I s -> I (final (m s)) ∧ Forall P (evs (m s)).

(** INTEGER and REAL cells. *)
Definition is_numeric (v : value) : bool :=
  match v with
  | VInt _ | VFloat _ => true
  | VText _ | VNull => false
  end.

(** The numbers a cell of SQLite holds: an INTEGER is a signed integer of
    64 bits, a REAL a double, taken finite here. *)
Definition sqlite_number (v : value) : bool :=
  match v with
  | VInt n => (- 2 ^ 63 <=? n) && (n <? 2 ^ 63)
  | VFloat _ => true
  | VText _ | VNull => false
  end.

(** *** More example worlds *)

(** A platform on which bank.db cannot be opened. *)
Definition unreachable : Env :=
  {| cwd := cwd healthy;
     connect_fault := Some (OperationalError "unable to open database file");
     query_fault := fun _ => None;
     no_such_table := no_such_table healthy;
     mkdir_fault := None;
     write_fault := fun _ => None;
     written_before_fault := fun _ => None;
     to_csv := to_csv healthy;
     chart_fault := fun _ _ _ => None;
     not_in_index := not_in_index healthy |}.

(** A platform whose disk is full: every write fails after the file was
    opened, with nothing written. *)
Definition disk_full : Env :=
  {| cwd := cwd healthy;
     connect_fault := None;
     query_fault := fun _ => None;
     no_such_table := no_such_table healthy;
     mkdir_fault := None;
     write_fault := fun _ =>
       Some (OtherError "OSError" "[Errno 28] No space left on device");
     written_before_fault := fun _ => Some O;
     to_csv := to_csv healthy;
     chart_fault := fun _ _ _ => None;
     not_in_index := not_in_index healthy |}.

(** A directory that holds the file of an earlier export, with a
    connection open. *)
Definition after_an_export : State :=
  {| db := Some all_views; dirs := {[ "results" ]};
     files := {[ "results/overall_kpis.csv" := "old" ]};
     open_conns := {[ 0%nat ]}; next_conn := 1; cache := ∅ |}.


(** * Properties *)

#[local] Arguments Ascii.eqb : simpl never.
#[local] Arguments String.eqb : simpl never.


(** Unfolds the monad in the goal, down to the runs of its primitives. *)
Ltac run :=
  unfold mbind, mret, M_bind, M_ret;
  cbn [bind ret raise emit get put lift print st st_stop try_except
       and_then or_else after res final evs find_clause app].

(** ** Running the monad *)

Lemma run_bind {A B} (m : M A) (k : A -> M B) s :
  (m ≫= k) s = and_then (m s) k.
Proof. reflexivity. Qed.

Lemma bind_run {A B} (m : M A) (k : A -> M B) s :
  bind m k s = and_then (m s) k.
Proof. reflexivity. Qed.

Lemma after_run {A} es (x : outcome A) s es' :
  after es (Run x s es') = Run x s (es ++ es').
Proof. reflexivity. Qed.

Lemma and_then_returned {A B} (a : A) s es (k : A -> M B) :
  and_then (Run (Returned a) s es) k = after es (k a s).
Proof. reflexivity. Qed.

Lemma and_then_raised {A B} e s es (k : A -> M B) :
  and_then (Run (Raised e) s es) k = Run (Raised e) s es.
Proof. reflexivity. Qed.

Lemma run_try {A} (m : M A) clauses s :
  try_except m clauses s = or_else (m s) clauses.
Proof. reflexivity. Qed.

Lemma set_files_same s : set_files (files s) s = s.
Proof. by destruct s. Qed.

Lemma set_files_twice f g s : set_files f (set_files g s) = set_files f s.
Proof. reflexivity. Qed.

(** ** Strings and paths *)

Lemma remove_prefix_app p s : remove_prefix p (p +:+ s) = Some s.
Proof.
  induction p as [|a p IH]; simpl; [done|].
  by rewrite Ascii.eqb_refl.
Qed.

Lemma has_slash_app a b : has_slash (a +:+ b) = has_slash a || has_slash b.
Proof.
  induction a as [|c a IH]; simpl; [done|].
  rewrite IH. by rewrite orb_assoc.
Qed.

Lemma csv_path_of_plain view :
  has_slash view = false ->
  export_views.csv_path_of view = "results/" +:+ view +:+ ".csv".
Proof.
  intros H. unfold export_views.csv_path_of, os_path_join.
  destruct view as [|a view]; [reflexivity|].
  simpl in H. apply orb_false_elim in H as [Ha _].
  unfold starts_with. simpl remove_prefix.
  rewrite Ascii.eqb_sym, Ha. reflexivity.
Qed.

Lemma dirname_join a b :
  has_slash b = false -> dirname (a +:+ String "/" b) = a.
Proof.
  intros Hb. induction a as [|c a IH]; simpl.
  - by rewrite Hb.
  - rewrite has_slash_app. simpl. rewrite orb_true_r.
    by rewrite IH.
Qed.

Lemma dirname_csv_path_of view :
  has_slash view = false ->
  dirname (export_views.csv_path_of view) = export_views.RESULTS_DIR.
Proof.
  intros H. rewrite csv_path_of_plain by done.
  assert (Hs : has_slash (view +:+ ".csv") = false)
    by (rewrite has_slash_app, H; reflexivity).
  exact (dirname_join "results" (view +:+ ".csv") Hs).
Qed.

(** ** The libraries *)

#[local] Arguments remove_prefix : simpl never.
#[local] Arguments sql_of : simpl never.
#[local] Arguments dirname : simpl never.
#[local] Arguments os_path_join : simpl never.
#[local] Arguments export_views.csv_path_of : simpl never.
#[local] Arguments export_views.ok_line : simpl never.
#[local] Arguments export_views.summary_line : simpl never.
#[local] Arguments str_mul : simpl never.
#[local] Arguments String.append : simpl never.
#[local] Arguments view_answer : simpl never.

Lemma read_sql_query_open E view c s :
  c ∈ open_conns s ->
  read_sql_query E (sql_of view) c s =
  Run (match view_answer E (db s) view with
       | inr df => Returned df
       | inl f => Raised (Fault f)
       end) s [Query c (sql_of view)].
Proof.
  intros Hc. unfold read_sql_query. run.
  rewrite bool_decide_eq_true_2 by done.
  unfold sql_of. rewrite remove_prefix_app.
  destruct (view_answer E (db s) view); reflexivity.
Qed.

Lemma to_csv_file_run E df path s :
  dirname path ∈ dirs s ->
  to_csv_file E df path s =
  match write_fault E path with
  | None => Run (Returned tt) (set_files (<[path := to_csv E df]> (files s)) s)
                [WriteFile path (to_csv E df)]
  | Some f =>
      Run (Raised (Fault f))
          match written_before_fault E path with
          | Some n =>
              set_files (<[path := String.substring 0 n (to_csv E df)]>
                           (files s)) s
          | None => s
          end []
  end.
Proof.
  intros Hd. unfold to_csv_file. run.
  rewrite (bool_decide_eq_true_2 _ Hd), andb_false_r.
  destruct (write_fault E path); [|reflexivity].
  destruct (written_before_fault E path); reflexivity.
Qed.

Lemma export_view_to_csv_run E c view s :
  c ∈ open_conns s -> export_views.RESULTS_DIR ∈ dirs s ->
  has_slash view = false ->
  export_views.export_view_to_csv E c view s =
  Run (Returned (exports E (db s) view))
      (set_files (export_file E (db s) (files s) view) s)
      (export_events E (db s) c view).
Proof.
  intros Hc Hd Hv. unfold export_views.export_view_to_csv.
  rewrite run_try, run_bind.
  change ("SELECT * FROM " +:+ view) with (sql_of view).
  rewrite read_sql_query_open by done.
  unfold exports, export_file, export_leaves, export_events, export_outcome.
  destruct (view_answer E (db s) view) as [f|df].
  - rewrite and_then_raised, set_files_same.
    destruct f; reflexivity.
  - rewrite and_then_returned, run_bind, to_csv_file_run
      by (by rewrite dirname_csv_path_of).
    destruct (write_fault E (export_views.csv_path_of view)) as [f|].
    + rewrite and_then_raised.
      destruct (written_before_fault E (export_views.csv_path_of view));
        cbn [fmap option_fmap option_map]; rewrite ?set_files_same;
        destruct f; reflexivity.
    + reflexivity.
Qed.

Lemma sqlite3_connect_run E database s :
  sqlite3_connect E database s =
  match connect_fault E with
  | Some f => Run (Raised (Fault f)) s []
  | None => Run (Returned (next_conn s)) (connected s)
                [Connect (next_conn s) database]
  end.
Proof. unfold sqlite3_connect. destruct (connect_fault E); reflexivity. Qed.

Lemma mkdir_exist_ok_run E path s :
  mkdir_exist_ok E path s =
  if bool_decide (path ∈ dirs s) then Run (Returned tt) s []
  else if bool_decide (is_Some (files s !! path)) then
    Run (Raised (Fault (OtherError "FileExistsError"
                          ("[Errno 17] File exists: '" +:+ path +:+ "'")))) s []
  else match mkdir_fault E with
       | Some f => Run (Raised (Fault f)) s []
       | None => Run (Returned tt) (set_dirs ({[path]} ∪ dirs s) s) [Mkdir path]
       end.
Proof.
  unfold mkdir_exist_ok. run.
  repeat case_bool_decide; try reflexivity.
  destruct (mkdir_fault E); reflexivity.
Qed.

(** ** The export loop *)

Lemma export_loop_run E c vs : ∀ n s,
  c ∈ open_conns s -> export_views.RESULTS_DIR ∈ dirs s ->
  Forall (fun v => has_slash v = false) vs ->
  for_each vs (export_views.export_and_count E c) n s =
  Run (Returned (n + length (List.filter (exports E (db s)) vs))%nat)
      (set_files (fold_left (export_file E (db s)) vs (files s)) s)
      (concat (map (export_events E (db s) c) vs)).
Proof.
  induction vs as [|v vs IH]; intros n s Hc Hd Hvs.
  - cbn. rewrite set_files_same, Nat.add_0_r. reflexivity.
  - inversion Hvs as [|? ? Hv Hvs']; subst.
    cbn [for_each]. rewrite run_bind.
    unfold export_views.export_and_count at 1. rewrite run_bind.
    rewrite export_view_to_csv_run by done.
    run. rewrite IH by done.
    cbn [db files set_files List.filter fold_left map concat res final evs].
    rewrite after_run, app_nil_r, set_files_twice.
    destruct (exports E (db s) v); cbn [length]; do 2 f_equal; lia.
Qed.

Lemma connect_and_export_run E s :
  connect_fault E = None -> export_views.RESULTS_DIR ∈ dirs s ->
  let c := next_conn s in
  let d := db (connected s) in
  export_views.connect_and_export E s =
  Run (Returned tt)
      (closed c (set_files (fold_left (export_file E d) export_views.VIEWS (files s))
                           (connected s)))
      ([ Connect c export_views.DB_FILE;
         Print "[OK] Connected to bank.db"; Print "";
         Print "Exporting views to CSV..."; Print (str_mul "-" 70) ] ++
       concat (map (export_events E d c) export_views.VIEWS) ++
       [ Close c; Print (str_mul "-" 70);
         Print (export_views.summary_line
                  (length (List.filter (exports E d) export_views.VIEWS)));
         Print ("CSV files saved to: " +:+ os_path_join (cwd E) "results" +:+ "/");
         Print (str_mul "=" 70) ]).
Proof.
  intros Hconn Hd c d. unfold export_views.connect_and_export.
  rewrite run_try, run_bind, sqlite3_connect_run, Hconn.
  run. rewrite bind_run, export_loop_run; [|set_solver|done|].
  - reflexivity.
  - repeat constructor.
Qed.

Lemma connect_and_export_fault E f s :
  connect_fault E = Some f ->
  export_views.connect_and_export E s =
  Run (Returned tt) s [Print ("[ERROR] Error connecting to database: " +:+ str f)].
Proof.
  intros Hconn. unfold export_views.connect_and_export.
  rewrite run_try, run_bind, sqlite3_connect_run, Hconn. reflexivity.
Qed.

Lemma os_path_exists_database s :
  os_path_exists export_views.DB_FILE s =
  Run (Returned (bool_decide (is_Some (db s)))) s [].
Proof. reflexivity. Qed.

Lemma main_no_database E s :
  db s = None ->
  export_views.main E s =
  Run (Returned tt) s
      (Print <$> banner ++
                 [ "[ERROR] Database file 'bank.db' not found!";
                   "  Make sure bank.db exists in the current directory." ]).
Proof.
  intros Hdb. unfold export_views.main. run.
  rewrite bind_run, os_path_exists_database, Hdb.
  rewrite bool_decide_eq_false_2 by (by intros [? ?]).
  reflexivity.
Qed.

Lemma main_with_database E s :
  is_Some (db s) ->
  export_views.main E s =
  after (Print <$> banner)
        (and_then (mkdir_exist_ok E export_views.RESULTS_DIR s)
           (fun _ => after [Print "[OK] Results folder 'results' ready"; Print ""]
                       ∘ export_views.connect_and_export E)).
Proof.
  intros Hdb. unfold export_views.main. run.
  rewrite bind_run, os_path_exists_database.
  rewrite bool_decide_eq_true_2 by done.
  unfold export_views.create_results_folder. run.
  cbn [negb]. rewrite !bind_run.
  destruct (mkdir_exist_ok E export_views.RESULTS_DIR s) as [[[]|e] s' es];
    [|reflexivity].
  run. unfold compose. rewrite ?bind_run. run.
  destruct (export_views.connect_and_export E s') as [x s'' es'].
  unfold after; cbn [res final evs fmap list_fmap banner app].
  by rewrite <- !app_assoc.
Qed.

Lemma conn_events_export E d c vs :
  conn_events (concat (map (export_events E d c) vs)) =
  map (fun v => Query c (sql_of v)) vs.
Proof.
  induction vs as [|v vs IH]; [done|].
  cbn [map concat]. unfold conn_events in *. rewrite List.filter_app, IH.
  unfold export_events. cbn [List.filter is_conn_event app].
  destruct (export_outcome E d v) as [f|df]; [|reflexivity].
  destruct f; reflexivity.
Qed.

(** ** The exporter without a database *)

(** C3: when bank.db does not exist, the exporter prints its banner and one
    diagnostic, the only line tagged [[ERROR]], with its hint; it then
    returns: it opens no connection, queries nothing and writes no file. *)
Theorem main_absent_database_aborts E s :
  db s = None ->
  let r := export_views.main E s in
  res r = Returned tt ∧
  printed (evs r) =
    banner ++ [ "[ERROR] Database file 'bank.db' not found!";
                "  Make sure bank.db exists in the current directory." ] ∧
  List.filter error_tagged (printed (evs r)) =
    [ "[ERROR] Database file 'bank.db' not found!" ] ∧
  conn_events (evs r) = [] ∧
  (∀ path content, ¬ In (WriteFile path content) (evs r)) ∧
  files (final r) = files s.
Proof.
  intros Hdb r. subst r. rewrite main_no_database by done.
  cbn [res final evs]. repeat split; try reflexivity.
  intros path content Hin. cbn in Hin. intuition discriminate.
Qed.

Lemma main_absent_database_aborts_witness :
  db no_database = None ∧
  let r := export_views.main healthy no_database in
  res r = Returned tt ∧
  printed (evs r) =
    banner ++ [ "[ERROR] Database file 'bank.db' not found!";
                "  Make sure bank.db exists in the current directory." ] ∧
  List.filter error_tagged (printed (evs r)) =
    [ "[ERROR] Database file 'bank.db' not found!" ] ∧
  conn_events (evs r) = [] ∧
  (∀ path content, ¬ In (WriteFile path content) (evs r)) ∧
  files (final r) = files no_database.
Proof.
  split; [reflexivity|].
  apply (main_absent_database_aborts healthy no_database). reflexivity.
Defined.

(** C10: when bank.db does not exist, the exporter leaves the world as it
    found it: the existence check returns before the results folder is
    created, so no directory is made. *)
Theorem main_absent_database_frame E s :
  db s = None ->
  let r := export_views.main E s in
  final r = s ∧ dirs (final r) = dirs s ∧ (∀ path, ¬ In (Mkdir path) (evs r)).
Proof.
  intros Hdb r. subst r. rewrite main_no_database by done.
  cbn [res final evs]. repeat split.
  intros path Hin. cbn in Hin. intuition discriminate.
Qed.

Lemma main_absent_database_frame_witness :
  db no_database = None ∧
  let r := export_views.main healthy no_database in
  final r = no_database ∧ dirs (final r) = dirs no_database ∧
  (∀ path, ¬ In (Mkdir path) (evs r)).
Proof.
  split; [reflexivity|].
  apply (main_absent_database_frame healthy no_database). reflexivity.
Defined.

(** ** The connection of a batch *)

Lemma conn_events_app es es' :
  conn_events (es ++ es') = conn_events es ++ conn_events es'.
Proof. apply List.filter_app. Qed.

Lemma conn_events_prints ls : conn_events (Print <$> ls) = [].
Proof. induction ls; [done|]. cbn. done. Qed.

Lemma in_conn_events e es : In e es -> is_conn_event e = true -> In e (conn_events es).
Proof. intros. apply List.filter_In. done. Qed.

(** C5: in a run of the exporter in which bank.db exists and a connection
    [c] is opened, [c] is the only connection of the run: the run's
    traffic with the database is the opening of [c], one query on [c] for
    each of the eleven views, in order, and the closing of [c], whatever
    the queries and the writes answer; [c] is closed when the run ends. *)
Theorem main_single_connection E s c :
  is_Some (db s) ->
  In (Connect c export_views.DB_FILE) (evs (export_views.main E s)) ->
  let r := export_views.main E s in
  res r = Returned tt ∧
  conn_events (evs r) =
    Connect c export_views.DB_FILE ::
    map (fun v => Query c (sql_of v)) export_views.VIEWS ++ [Close c] ∧
  c ∉ open_conns (final r).
Proof.
  intros Hdb Hin r. subst r. revert Hin.
  rewrite main_with_database by done.
  rewrite mkdir_exist_ok_run.
  assert (Hno : ∀ (e : exn) s', ¬ In (Connect c export_views.DB_FILE)
            (evs (after (Print <$> banner)
                    (Run (@Raised unit e) s' [])))).
  { intros e s' H. cbn in H. intuition discriminate. }
  assert (Hgo : ∀ s' es, export_views.RESULTS_DIR ∈ dirs s' ->
            conn_events es = [] -> open_conns s' = open_conns s ->
            next_conn s' = next_conn s ->
            let r := after (Print <$> banner)
                       (and_then (Run (Returned tt) s' es)
                          (fun _ => after [Print "[OK] Results folder 'results' ready"; Print ""]
                                      ∘ export_views.connect_and_export E)) in
            In (Connect c export_views.DB_FILE) (evs r) ->
            res r = Returned tt ∧
            conn_events (evs r) =
              Connect c export_views.DB_FILE ::
              map (fun v => Query c (sql_of v)) export_views.VIEWS ++ [Close c] ∧
            c ∉ open_conns (final r)).
  { intros s' es Hd Hes Ho Hn r. subst r.
    rewrite and_then_returned. unfold compose.
    destruct (connect_fault E) as [f|] eqn:Hconn.
    - rewrite (connect_and_export_fault E f) by done.
      rewrite !after_run. cbn [evs]. intros Hin.
      apply in_conn_events in Hin; [|done].
      rewrite !conn_events_app, conn_events_prints, Hes in Hin.
      cbn in Hin. tauto.
    - rewrite connect_and_export_run by done.
      rewrite !after_run. cbn [res final evs]. intros Hin.
      assert (Hev : conn_events
                ((Print <$> banner) ++ es ++
                 [Print "[OK] Results folder 'results' ready"; Print ""] ++
                 [Connect (next_conn s') export_views.DB_FILE;
                  Print "[OK] Connected to bank.db"; Print "";
                  Print "Exporting views to CSV..."; Print (str_mul "-" 70)] ++
                 concat (map (export_events E (db (connected s')) (next_conn s'))
                           export_views.VIEWS) ++
                 [Close (next_conn s'); Print (str_mul "-" 70);
                  Print (export_views.summary_line
                           (length (List.filter (exports E (db (connected s')))
                                      export_views.VIEWS)));
                  Print ("CSV files saved to: " +:+ os_path_join (cwd E) "results" +:+ "/");
                  Print (str_mul "=" 70)]) =
              Connect (next_conn s') export_views.DB_FILE ::
              map (fun v => Query (next_conn s') (sql_of v)) export_views.VIEWS ++
              [Close (next_conn s')]).
      { rewrite !conn_events_app, conn_events_prints, Hes, conn_events_export.
        reflexivity. }
      apply in_conn_events in Hin; [|done].
      rewrite Hev in Hin.
      assert (c = next_conn s') as ->.
      { destruct Hin as [Hin|Hin]; [congruence|].
        apply in_app_or in Hin as [Hin|Hin].
        - apply in_map_iff in Hin as (v & Hv & _). discriminate.
        - cbn in Hin. intuition discriminate. }
      split; [reflexivity|]. split; [exact Hev|].
      cbn. intros [_ Hc]%elem_of_difference. apply Hc. by apply elem_of_singleton. }
  destruct (bool_decide (export_views.RESULTS_DIR ∈ dirs s)) eqn:Hdir.
  - apply Hgo; try done. by apply bool_decide_eq_true in Hdir.
  - destruct (bool_decide (is_Some (files s !! export_views.RESULTS_DIR))).
    + intros Hin. by apply Hno in Hin.
    + destruct (mkdir_fault E).
      * intros Hin. by apply Hno in Hin.
      * apply Hgo; cbn; [|done..].
        by apply elem_of_union_l, elem_of_singleton.
Qed.

Lemma main_single_connection_witness :
  is_Some (db (world (Some one_view_missing))) ∧
  In (Connect 0 export_views.DB_FILE)
     (evs (export_views.main healthy (world (Some one_view_missing)))) ∧
  let r := export_views.main healthy (world (Some one_view_missing)) in
  res r = Returned tt ∧
  conn_events (evs r) =
    Connect 0 export_views.DB_FILE ::
    map (fun v => Query 0 (sql_of v)) export_views.VIEWS ++ [Close 0] ∧
  0%nat ∉ open_conns (final r).
Proof.
  assert (H1 : is_Some (db (world (Some one_view_missing)))) by (by eexists).
  assert (H2 : In (Connect 0 export_views.DB_FILE)
                 (evs (export_views.main healthy (world (Some one_view_missing))))).
  { vm_compute. do 7 right. left. reflexivity. }
  split; [exact H1|]. split; [exact H2|].
  exact (main_single_connection healthy (world (Some one_view_missing)) 0%nat H1 H2).
Defined.

(** ** One view missing *)

Lemma length_append a b :
  String.length (a +:+ b) = (String.length a + String.length b)%nat.
Proof.
  induction a as [|c a IH]; [done|].
  change (S (String.length (a +:+ b)) = S (String.length a + String.length b)).
  by rewrite IH.
Qed.

Lemma append_cancel_r a b s : a +:+ s = b +:+ s -> a = b.
Proof.
  revert b. induction a as [|c a IH]; intros [|c' b] H.
  - done.
  - apply (f_equal String.length) in H. rewrite !length_append in H.
    cbn in H. lia.
  - apply (f_equal String.length) in H. rewrite !length_append in H.
    cbn in H. lia.
  - change (String c (a +:+ s) = String c' (b +:+ s)) in H.
    injection H as -> H. f_equal. by apply IH.
Qed.

Lemma csv_path_of_inj v v' :
  has_slash v = false -> has_slash v' = false ->
  export_views.csv_path_of v = export_views.csv_path_of v' -> v = v'.
Proof.
  intros Hv Hv'. rewrite !csv_path_of_plain by done. intros H.
  apply (inj (String.app "results/")) in H. by apply append_cancel_r in H.
Qed.

Lemma printed_app es es' : printed (es ++ es') = printed es ++ printed es'.
Proof. apply omap_app. Qed.

Lemma printed_prints ls : printed (Print <$> ls) = ls.
Proof.
  induction ls as [|l ls IH]; [done|].
  change (l :: printed (Print <$> ls) = l :: ls). by rewrite IH.
Qed.

Lemma printed_export E d c vs :
  printed (concat (map (export_events E d c) vs)) =
  concat (map (export_lines E d) vs).
Proof.
  induction vs as [|v vs IH]; [done|].
  cbn [map concat]. rewrite printed_app, IH. f_equal.
  unfold export_events, export_lines.
  destruct (export_outcome E d v) as [f|df]; [|reflexivity].
  change (printed (Print <$> error_lines v f) = error_lines v f).
  apply printed_prints.
Qed.

Lemma error_tagged_ok_line v n : error_tagged (export_views.ok_line v n) = false.
Proof. reflexivity. Qed.

Lemma error_tagged_error_lines v f :
  List.filter error_tagged (error_lines v f) = [error_line v f].
Proof. destruct f; reflexivity. Qed.

Section OneMissing.
Variable E : Env.
Variable d : option (gmap string Table).
Variable missing : string.
Variable f : fault.
Hypothesis Hmissing : export_outcome E d missing = inl f.

Lemma exports_count vs :
  NoDup vs ->
  (∀ v, v ∈ vs -> v ≠ missing -> exports E d v = true) ->
  length (List.filter (exports E d) vs) =
  (length vs - (if bool_decide (missing ∈ vs) then 1 else 0))%nat.
Proof.
  induction vs as [|v vs IH]; intros Hnd Hok; [done|].
  apply NoDup_cons in Hnd as [Hv Hnd].
  cbn [List.filter length].
  destruct (decide (v = missing)) as [->|Hne].
  - unfold exports at 1. rewrite Hmissing.
    rewrite IH; [|done|intros; apply Hok; [by right|done]].
    rewrite (bool_decide_eq_false_2 _ Hv).
    rewrite bool_decide_eq_true_2 by left. lia.
  - rewrite Hok; [|left|done]. cbn [length].
    rewrite IH; [|done|intros; apply Hok; [by right|done]].
    destruct (decide (missing ∈ vs)) as [Hin|Hout].
    + rewrite !bool_decide_eq_true_2; [|by right|done].
      destruct vs; [by apply elem_of_nil in Hin|]. cbn. lia.
    + rewrite !bool_decide_eq_false_2; [lia| |done].
      intros [?|?]%elem_of_cons; done.
Qed.

Lemma export_diagnostics vs :
  NoDup vs ->
  (∀ v, v ∈ vs -> v ≠ missing -> exports E d v = true) ->
  List.filter error_tagged (concat (map (export_lines E d) vs)) =
  if bool_decide (missing ∈ vs) then [error_line missing f] else [].
Proof.
  induction vs as [|v vs IH]; intros Hnd Hok; [done|].
  apply NoDup_cons in Hnd as [Hv Hnd].
  cbn [map concat]. rewrite List.filter_app.
  rewrite IH; [|done|intros; apply Hok; [by right|done]].
  destruct (decide (v = missing)) as [->|Hne].
  - unfold export_lines. rewrite Hmissing, error_tagged_error_lines.
    rewrite (bool_decide_eq_false_2 _ Hv).
    by rewrite bool_decide_eq_true_2 by left.
  - assert (Hv' : exports E d v = true) by (apply Hok; [left|done]).
    unfold exports in Hv'. unfold export_lines.
    destruct (export_outcome E d v) as [|df]; [done|].
    cbn [List.filter]. rewrite error_tagged_ok_line. cbn [app].
    destruct (decide (missing ∈ vs)) as [Hin|Hout].
    + rewrite !bool_decide_eq_true_2; [done|by right|done].
    + rewrite !bool_decide_eq_false_2; [done| |done].
      intros [?|?]%elem_of_cons; done.
Qed.
End OneMissing.

Lemma export_outcome_leaves E d v df :
  export_outcome E d v = inr df -> export_leaves E d v = Some (to_csv E df).
Proof.
  unfold export_outcome, export_leaves.
  destruct (view_answer E d v) as [f|df']; [done|].
  destruct (write_fault E (export_views.csv_path_of v)); [done|].
  by intros [= ->].
Qed.

Lemma export_leaves_answered E d v :
  is_Some (export_leaves E d v) -> ∃ df, view_answer E d v = inr df.
Proof.
  unfold export_leaves. destruct (view_answer E d v) as [f|df]; [|by eauto].
  by intros [c [=]].
Qed.

Lemma export_files_kept E d vs : ∀ fs path,
  (∀ v, In v vs -> is_Some (export_leaves E d v) ->
        export_views.csv_path_of v ≠ path) ->
  fold_left (export_file E d) vs fs !! path = fs !! path.
Proof.
  induction vs as [|v vs IH]; intros fs path Hne; [done|].
  cbn [fold_left]. rewrite IH by (intros; apply Hne; [by right|done]).
  unfold export_file. specialize (Hne v (or_introl eq_refl)).
  destruct (export_leaves E d v); [|done].
  by rewrite lookup_insert_ne by (by apply Hne).
Qed.

Lemma export_files_left E d vs : ∀ fs v content,
  In v vs -> export_leaves E d v = Some content ->
  (∀ v', In v' vs -> export_views.csv_path_of v' = export_views.csv_path_of v -> v' = v) ->
  fold_left (export_file E d) vs fs !! export_views.csv_path_of v =
  Some content.
Proof.
  induction vs as [|a vs IH]; intros fs v content Hin Hv Hinj; [done|].
  cbn [fold_left].
  destruct (decide (v ∈ vs)) as [Hvs|Hvs].
  - apply IH; [by apply list_elem_of_In|done|].
    intros; apply Hinj; [by right|done].
  - destruct Hin as [->|Hin]; [|by apply list_elem_of_In in Hin].
    rewrite export_files_kept.
    + unfold export_file. rewrite Hv. by rewrite lookup_insert_eq.
    + intros v' Hv' _ Heq. apply Hvs, list_elem_of_In.
      by rewrite <- (Hinj v' (or_intror Hv') Heq).
Qed.

Lemma export_files_written E d vs fs v df :
  In v vs -> export_outcome E d v = inr df ->
  (∀ v', In v' vs -> export_views.csv_path_of v' = export_views.csv_path_of v -> v' = v) ->
  fold_left (export_file E d) vs fs !! export_views.csv_path_of v =
  Some (to_csv E df).
Proof.
  intros Hin Hv Hinj. apply export_files_left; [done| |done].
  by apply export_outcome_leaves.
Qed.

Lemma in_export_events E d c vs v e :
  In v vs -> In e (export_events E d c v) ->
  In e (concat (map (export_events E d c) vs)).
Proof.
  intros Hv He. apply in_concat. exists (export_events E d c v).
  split; [|done]. by apply in_map.
Qed.

Lemma VIEWS_NoDup : NoDup export_views.VIEWS.
Proof. apply (bool_decide_unpack _). vm_compute. exact I. Qed.

Lemma VIEWS_plain : Forall (fun v => has_slash v = false) export_views.VIEWS.
Proof. repeat constructor. Qed.

(** C2: on a platform without faults of its own, where [results] is not a
    regular file, and on a database that holds every view of the catalog
    but one, the exporter returns normally; its
    summary reads 10/11; among the printed lines exactly one is a
    diagnostic, the error line of [export_view_to_csv] that names the
    missing view; every view of the catalog is queried, the missing one
    included; and every other view has its success line and its file, with
    the serialized frame of that view, while no file is written for the
    missing view. *)
Theorem export_one_view_missing E s views missing :
  no_faults E ->
  db s = Some views ->
  files s !! export_views.RESULTS_DIR = None ->
  In missing export_views.VIEWS ->
  views !! missing = None ->
  (∀ v, In v export_views.VIEWS -> v ≠ missing -> is_Some (views !! v)) ->
  let r := export_views.main E s in
  res r = Returned tt ∧
  In (nl +:+ "Summary: 10/11 views exported successfully") (printed (evs r)) ∧
  List.filter error_tagged (printed (evs r)) =
    [ "  [ERROR] Error exporting " +:+ missing +:+ ": " +:+
      error_detail (no_such_table E missing) ] ∧
  (∀ v, In v export_views.VIEWS -> In (Query (next_conn s) (sql_of v)) (evs r)) ∧
  (∀ v df, In v export_views.VIEWS -> views !! v = Some df ->
     In (Print (export_views.ok_line v (len df))) (evs r) ∧
     files (final r) !! export_views.csv_path_of v = Some (to_csv E df)) ∧
  files (final r) !! export_views.csv_path_of missing =
    files s !! export_views.csv_path_of missing.
Proof.
  intros (Hconn & Hmk & Hq & Hw) Hdb Hfile Hmiss Hnone Hothers r. subst r.
  assert (Hout : export_outcome E (Some views) missing =
                 inl (no_such_table E missing)).
  { unfold export_outcome, view_answer. rewrite Hq. cbn. by rewrite Hnone. }
  assert (Hin : ∀ v df, views !! v = Some df ->
                  export_outcome E (Some views) v = inr df).
  { intros v df Hv. unfold export_outcome, view_answer.
    rewrite Hq, Hw. cbn. by rewrite Hv. }
  assert (Hok : ∀ v, v ∈ export_views.VIEWS -> v ≠ missing ->
                  exports E (Some views) v = true).
  { intros v Hv Hne. apply list_elem_of_In in Hv.
    destruct (Hothers v Hv Hne) as [df Hdf].
    unfold exports. by rewrite (Hin v df Hdf). }
  assert (Hcount : length (List.filter (exports E (Some views)) export_views.VIEWS)
                   = 10%nat).
  { rewrite (exports_count E (Some views) missing _ Hout _ VIEWS_NoDup Hok).
    rewrite bool_decide_eq_true_2 by (by apply list_elem_of_In). reflexivity. }
  assert (Hinj : ∀ v v', In v export_views.VIEWS -> In v' export_views.VIEWS ->
            export_views.csv_path_of v' = export_views.csv_path_of v -> v' = v).
  { intros v v' Hv Hv'. pose proof VIEWS_plain as Hp.
    rewrite Forall_forall in Hp.
    apply csv_path_of_inj; apply Hp; by apply list_elem_of_In. }
  rewrite main_with_database by (by rewrite Hdb).
  rewrite mkdir_exist_ok_run, Hmk.
  rewrite (bool_decide_eq_false_2 (is_Some _))
    by (rewrite Hfile; by intros [? ?]).
  set (c := next_conn s).
  assert (Hgo : ∀ s' es, export_views.RESULTS_DIR ∈ dirs s' ->
            printed es = [] -> (∀ e, In e es -> is_conn_event e = false) ->
            db s' = db s -> files s' = files s -> next_conn s' = c ->
            let r := after (Print <$> banner)
                       (and_then (Run (Returned tt) s' es)
                          (fun _ => after [Print "[OK] Results folder 'results' ready"; Print ""]
                                      ∘ export_views.connect_and_export E)) in
            res r = Returned tt ∧
            In (nl +:+ "Summary: 10/11 views exported successfully") (printed (evs r)) ∧
            List.filter error_tagged (printed (evs r)) =
              [ error_line missing (no_such_table E missing) ] ∧
            (∀ v, In v export_views.VIEWS -> In (Query c (sql_of v)) (evs r)) ∧
            (∀ v df, In v export_views.VIEWS -> views !! v = Some df ->
               In (Print (export_views.ok_line v (len df))) (evs r) ∧
               files (final r) !! export_views.csv_path_of v = Some (to_csv E df)) ∧
            files (final r) !! export_views.csv_path_of missing =
              files s !! export_views.csv_path_of missing).
  { intros s' es Hd Hes _ Hdb' Hfs' Hc' r. subst r.
    rewrite and_then_returned. unfold compose.
    rewrite connect_and_export_run by done.
    assert (Hd' : db (connected s') = Some views).
    { cbn. by rewrite Hdb', Hdb. }
    rewrite Hd', Hc', Hfs', Hcount. rewrite !after_run.
    cbn [res final evs closed set_conns set_files files connected set_db].
    split; [reflexivity|].
    split.
    { rewrite !printed_app, printed_prints, Hes, printed_export.
      do 5 (apply in_or_app; right). right. left. reflexivity. }
    split.
    { rewrite !printed_app, printed_prints, Hes, printed_export.
      rewrite !List.filter_app.
      rewrite (export_diagnostics E (Some views) missing _ Hout _ VIEWS_NoDup Hok).
      rewrite bool_decide_eq_true_2 by (by apply list_elem_of_In).
      reflexivity. }
    split.
    { intros v Hv. apply in_or_app. right. apply in_or_app. right.
      apply in_or_app. right. apply in_or_app. right. apply in_or_app. left.
      apply (in_export_events _ _ _ _ v); [done|]. by left. }
    split.
    { intros v df Hv Hdf. split.
      - apply in_or_app. right. apply in_or_app. right.
        apply in_or_app. right. apply in_or_app. right. apply in_or_app. left.
        apply (in_export_events _ _ _ _ v); [done|].
        unfold export_events. rewrite (Hin v df Hdf). right. right. by left.
      - apply export_files_written; [done|by apply Hin|].
        intros v' Hv'. by apply Hinj. }
    apply export_files_kept. intros v Hv Hex Heq.
    assert (v = missing) as -> by (by apply (Hinj missing v)).
    apply export_leaves_answered in Hex as [df Hdf].
    unfold export_outcome in Hout. by rewrite Hdf, Hw in Hout. }
  destruct (bool_decide (export_views.RESULTS_DIR ∈ dirs s)) eqn:Hdir.
  - apply Hgo; try done. by apply bool_decide_eq_true in Hdir.
  - apply Hgo; try done.
    + cbn. by apply elem_of_union_l, elem_of_singleton.
    + intros e [<-|[]]. reflexivity.
Qed.

Lemma export_one_view_missing_witness :
  no_faults healthy ∧
  db (world (Some one_view_missing)) = Some one_view_missing ∧
  files (world (Some one_view_missing)) !! export_views.RESULTS_DIR = None ∧
  In "high_value_customers" export_views.VIEWS ∧
  one_view_missing !! "high_value_customers" = None ∧
  (∀ v, In v export_views.VIEWS -> v ≠ "high_value_customers" ->
        is_Some (one_view_missing !! v)) ∧
  let r := export_views.main healthy (world (Some one_view_missing)) in
  res r = Returned tt ∧
  In (nl +:+ "Summary: 10/11 views exported successfully") (printed (evs r)) ∧
  List.filter error_tagged (printed (evs r)) =
    [ "  [ERROR] Error exporting " +:+ "high_value_customers" +:+ ": " +:+
      error_detail (no_such_table healthy "high_value_customers") ] ∧
  (∀ v, In v export_views.VIEWS ->
        In (Query (next_conn (world (Some one_view_missing))) (sql_of v)) (evs r)) ∧
  (∀ v df, In v export_views.VIEWS -> one_view_missing !! v = Some df ->
     In (Print (export_views.ok_line v (len df))) (evs r) ∧
     files (final r) !! export_views.csv_path_of v = Some (to_csv healthy df)) ∧
  files (final r) !! export_views.csv_path_of "high_value_customers" =
    files (world (Some one_view_missing))
      !! export_views.csv_path_of "high_value_customers".
Proof.
  assert (H1 : no_faults healthy) by (repeat split; reflexivity).
  assert (H2 : db (world (Some one_view_missing)) = Some one_view_missing)
    by reflexivity.
  assert (H3 : files (world (Some one_view_missing))
                 !! export_views.RESULTS_DIR = None) by reflexivity.
  assert (H4 : In "high_value_customers" export_views.VIEWS)
    by (vm_compute; tauto).
  assert (H5 : one_view_missing !! "high_value_customers" = None)
    by (vm_compute; reflexivity).
  assert (H6 : ∀ v, In v export_views.VIEWS -> v ≠ "high_value_customers" ->
                 is_Some (one_view_missing !! v)).
  { intros v Hv Hne.
    repeat (destruct Hv as [<-|Hv]; [try (vm_compute; eexists; reflexivity); done|]).
    destruct Hv. }
  repeat (split; [assumption|]).
  exact (export_one_view_missing healthy (world (Some one_view_missing))
           one_view_missing "high_value_customers" H1 H2 H3 H4 H5 H6).
Defined.

(** ** The view reader of the dashboard *)

Lemma query_run E view s :
  query E view s =
  match connect_fault E with
  | Some f => Run (Raised (Fault f)) s []
  | None =>
      Run (match view_answer E (db (connected s)) view with
           | inr df => Returned df
           | inl f => Raised (Fault f)
           end)
          (connected s)
          [Connect (next_conn s) database_path; Query (next_conn s) (sql_of view)]
  end.
Proof.
  unfold query. rewrite run_bind, sqlite3_connect_run.
  destruct (connect_fault E); [reflexivity|].
  rewrite and_then_returned, read_sql_query_open.
  - reflexivity.
  - cbn. by apply elem_of_union_l, elem_of_singleton.
Qed.

Lemma load_view_body_run E view s :
  dashboard.load_view_body E view s =
  match connect_fault E with
  | Some f => Run (Returned empty_frame) s [Show (loading_error view f)]
  | None =>
      let c := next_conn s in
      match view_answer E (db (connected s)) view with
      | inr df =>
          Run (Returned df) (closed c (connected s))
              [Connect c database_path; Query c (sql_of view); Close c]
      | inl f =>
          Run (Returned empty_frame) (connected s)
              [Connect c database_path; Query c (sql_of view);
               Show (loading_error view f)]
      end
  end.
Proof.
  unfold dashboard.load_view_body.
  rewrite run_try, run_bind, sqlite3_connect_run.
  destruct (connect_fault E) as [f|]; [reflexivity|].
  rewrite and_then_returned, run_bind.
  change ("SELECT * FROM " +:+ view) with (sql_of view).
  rewrite read_sql_query_open
    by (cbn; by apply elem_of_union_l, elem_of_singleton).
  cbn zeta. destruct (view_answer E (db (connected s)) view); reflexivity.
Qed.

Lemma load_view_hit E view s df els :
  cache s !! view = Some (df, els) ->
  dashboard.load_view E view s = Run (Returned df) s (Show <$> els).
Proof.
  intros H. unfold dashboard.load_view, dashboard.cache_data. by rewrite H.
Qed.

Lemma load_view_miss E view s :
  cache s !! view = None ->
  dashboard.load_view E view s =
  let r := dashboard.load_view_body E view s in
  match res r with
  | Returned df =>
      Run (Returned df)
          (set_cache (<[view := (df, shown (evs r))]> (cache (final r))) (final r))
          (evs r)
  | Raised _ => r
  end.
Proof.
  intros H. unfold dashboard.load_view, dashboard.cache_data. by rewrite H.
Qed.

(** C1: [load_view] returns a frame from every state and for every view
    name, it never raises; and when the view is not cached, so that the
    view is really queried, the frame is the one the query returns if the
    query succeeds, and the empty frame if connecting or querying raises. *)
Theorem load_view_never_raises E view s :
  (∃ df, res (dashboard.load_view E view s) = Returned df) ∧
  (cache s !! view = None ->
   res (dashboard.load_view E view s) =
   Returned (match res (query E view s) with
             | Returned df => df
             | Raised _ => empty_frame
             end)).
Proof.
  destruct (cache s !! view) as [[df els]|] eqn:Hc.
  - rewrite (load_view_hit E view s df els Hc). split; [by eexists|done].
  - rewrite load_view_miss, load_view_body_run, query_run by done.
    destruct (connect_fault E); [split; [by eexists|done]|].
    cbn zeta.
    destruct (view_answer E (db (connected s)) view);
      (split; [by eexists|done]).
Qed.

Lemma load_view_never_raises_witness :
  cache no_database !! "overall_kpis" = None ∧
  (∃ df, res (dashboard.load_view healthy "overall_kpis" no_database) = Returned df) ∧
  res (dashboard.load_view healthy "overall_kpis" no_database) =
  Returned (match res (query healthy "overall_kpis" no_database) with
            | Returned df => df
            | Raised _ => empty_frame
            end).
Proof.
  assert (H : cache no_database !! "overall_kpis" = None) by reflexivity.
  split; [exact H|].
  destruct (load_view_never_raises healthy "overall_kpis" no_database) as [H1 H2].
  split; [exact H1|exact (H2 H)].
Defined.

(** *** The connection of one call *)

(** On the path without a fault, the call opens one connection, queries on
    it and closes it. *)
Lemma load_view_closes_on_success E view s df :
  cache s !! view = None -> connect_fault E = None ->
  view_answer E (db (connected s)) view = inr df ->
  let r := dashboard.load_view E view s in
  conn_events (evs r) =
    [ Connect (next_conn s) database_path; Query (next_conn s) (sql_of view);
      Close (next_conn s) ] ∧
  next_conn s ∉ open_conns (final r).
Proof.
  intros Hc Hconn Hans.
  rewrite load_view_miss, load_view_body_run, Hconn by done.
  cbn zeta. rewrite Hans. split; [reflexivity|].
  cbn. intros [_ H]%elem_of_difference. apply H. by apply elem_of_singleton.
Qed.

(** When the query raises, the handler returns without closing the
    connection the call opened. *)
Lemma load_view_open_after_fault E view s f :
  cache s !! view = None -> connect_fault E = None ->
  view_answer E (db (connected s)) view = inl f ->
  let r := dashboard.load_view E view s in
  conn_events (evs r) =
    [ Connect (next_conn s) database_path; Query (next_conn s) (sql_of view) ] ∧
  next_conn s ∈ open_conns (final r).
Proof.
  intros Hc Hconn Hans.
  rewrite load_view_miss, load_view_body_run, Hconn by done.
  cbn zeta. rewrite Hans. split; [reflexivity|].
  cbn. by apply elem_of_union_l, elem_of_singleton.
Qed.

(** C4, at a database that lacks the view asked for: the call opens
    connection 0, the query on it raises, and the call returns the empty
    frame with connection 0 still open: no [Close] follows the query. *)
Theorem load_view_leaves_connection_open :
  let r := dashboard.load_view healthy "high_value_customers"
             (world (Some one_view_missing)) in
  res r = Returned empty_frame ∧
  conn_events (evs r) =
    [ Connect 0 "bank.db"; Query 0 "SELECT * FROM high_value_customers" ] ∧
  0%nat ∈ open_conns (final r).
Proof.
  assert (Hans : view_answer healthy
                   (db (connected (world (Some one_view_missing))))
                   "high_value_customers" =
                 inl (no_such_table healthy "high_value_customers"))
    by (vm_compute; reflexivity).
  destruct (load_view_open_after_fault healthy "high_value_customers"
              (world (Some one_view_missing)) _ eq_refl eq_refl Hans)
    as [Hev Hopen].
  split; [|split; [exact Hev|exact Hopen]].
  rewrite load_view_miss, load_view_body_run by reflexivity.
  cbn zeta. change (connect_fault healthy) with (@None fault).
  cbv iota. rewrite Hans. reflexivity.
Qed.

(** ** The KPI strip *)

(** C6, as the specification states it, fails on the churn rate: 7.25 is
    not rendered as 7.3%. *)
Lemma kpi_example_churn_rate_not_7_3 :
  metric_values (evs (dashboard.kpi_strip kpi_example no_database)) ≠
  [ "12,345"; "7.3%"; "$1,234.50"; "$9,876,543" ].
Proof. vm_compute. discriminate. Qed.

(** C6, amended: the KPI row with customer count 12345, churn rate 7.25,
    average balance 1234.5 and total balance 9876543 (an INTEGER or a
    REAL) is rendered as 12,345, 7.2%, $1,234.50 and $9,876,543: the value
    7.25 lies halfway between 7.2 and 7.3, and the format rounds such a tie
    to the even digit. *)
Theorem kpi_example_rendering s :
  metric_values (evs (dashboard.kpi_strip kpi_example s)) =
    [ "12,345"; "7.2%"; "$1,234.50"; "$9,876,543" ] ∧
  metric_values (evs (dashboard.kpi_strip kpi_example_real s)) =
    [ "12,345"; "7.2%"; "$1,234.50"; "$9,876,543" ].
Proof. split; vm_compute; reflexivity. Qed.

(** ** The dashboard without a database *)

(** Without a database file no view can be answered: the file
    [sqlite3.connect] creates holds no view. *)
Lemma view_answer_no_database E s view :
  db s = None -> ∃ f, view_answer E (db (connected s)) view = inl f.
Proof.
  intros Hdb. unfold view_answer. cbn. rewrite Hdb. cbn.
  destruct (query_fault E view); eauto.
Qed.

Lemma load_view_no_database E view s :
  db s = None -> cache s !! view = None ->
  ∃ f s' es, dashboard.load_view E view s = Run (Returned empty_frame) s' es ∧
             shown es = [loading_error view f].
Proof.
  intros Hdb Hc. rewrite load_view_miss, load_view_body_run by done.
  destruct (connect_fault E) as [f|].
  - exists f. do 2 eexists. split; reflexivity.
  - cbn zeta. destruct (view_answer_no_database E s view Hdb) as [f ->].
    exists f. do 2 eexists. split; reflexivity.
Qed.

Lemma shown_app es es' : shown (es ++ es') = shown es ++ shown es'.
Proof. apply omap_app. Qed.

Lemma shown_show e es : shown (Show e :: es) = e :: shown es.
Proof. reflexivity. Qed.

(** On a fresh run without bank.db the dashboard shows two error banners,
    not one. *)
Lemma dashboard_absent_database_not_one_diagnostic :
  length (List.filter is_error
            (shown (evs (dashboard.script healthy "Overall KPIs" no_database))))
  ≠ 1%nat.
Proof. vm_compute. discriminate. Qed.

(** C8, where the code departs from it: when bank.db is absent and no
    result of the KPI view is cached, a run of the dashboard does halt
    before any panel ([st.stop()] ends the run and no clause of the
    script's [try] catches it), but it has shown two error banners by
    then, the one of [load_view] for the KPI view and the one that reports
    that no data was found, not a single diagnostic; and the one banner the
    script has for this case, that of its [except FileNotFoundError]
    clause, is never shown: [load_view] catches every exception itself, so
    that clause cannot be reached. *)
Theorem dashboard_absent_database_halts E picked s :
  db s = None -> cache s !! "overall_kpis" = None ->
  let r := dashboard.script E picked s in
  res r = Raised StopException ∧
  (∃ f, shown (evs r) = preamble ++ [loading_error "overall_kpis" f; no_data]) ∧
  length (List.filter is_error (shown (evs r))) = 2%nat ∧
  List.filter is_panel (shown (evs r)) = [] ∧
  ¬ In (st_error "⚠️ Database file 'bank.db' not found!") (shown (evs r)).
Proof.
  intros Hdb Hc r. subst r.
  destruct (load_view_no_database E "overall_kpis" s Hdb Hc)
    as (f & s' & es & Hrun & Hshown).
  unfold dashboard.script, dashboard.report. run.
  rewrite run_try, bind_run, Hrun. run.
  change (is_empty empty_frame) with true. cbv iota. run.
  cbn [isinstance]. cbn [res final evs after].
  rewrite !shown_show, shown_app, Hshown.
  split; [reflexivity|]. split; [by exists f|]. split; [reflexivity|].
  split; [reflexivity|].
  intros [H|[H|[H|[H|[H|[H|[]]]]]]]; discriminate H.
Qed.

Lemma dashboard_absent_database_halts_witness :
  db no_database = None ∧ cache no_database !! "overall_kpis" = None ∧
  let r := dashboard.script healthy "Overall KPIs" no_database in
  res r = Raised StopException ∧
  (∃ f, shown (evs r) = preamble ++ [loading_error "overall_kpis" f; no_data]) ∧
  length (List.filter is_error (shown (evs r))) = 2%nat ∧
  List.filter is_panel (shown (evs r)) = [] ∧
  ¬ In (st_error "⚠️ Database file 'bank.db' not found!") (shown (evs r)).
Proof.
  split; [reflexivity|]. split; [reflexivity|].
  exact (dashboard_absent_database_halts healthy "Overall KPIs" no_database
           eq_refl eq_refl).
Defined.

(** ** The cache of the session *)

Lemma queries_for_app view es es' :
  queries_for view (es ++ es') =
  (queries_for view es + queries_for view es')%nat.
Proof. unfold queries_for. by rewrite List.filter_app, length_app. Qed.

Lemma queries_for_shows view els : queries_for view (Show <$> els) = O.
Proof. induction els as [|e els IH]; [done|]. exact IH. Qed.

Lemma sql_of_inj view view' : sql_of view = sql_of view' -> view = view'.
Proof. apply (inj (String.app "SELECT * FROM ")). Qed.

Lemma is_query_for_query view view' c :
  is_query_for view' (Query c (sql_of view)) = bool_decide (view = view').
Proof.
  cbn [is_query_for]. destruct (String.eqb_spec (sql_of view) (sql_of view')) as [H|H].
  - apply sql_of_inj in H. by rewrite bool_decide_eq_true_2.
  - rewrite bool_decide_eq_false_2; [done|]. by intros ->.
Qed.

Section QueryOnce.
Context {A B : Type}.

Lemma once_ret (a : A) : query_once (ret a).
Proof. intros s view. cbn. auto. Qed.

Lemma once_raise e : query_once (@raise A e).
Proof. intros s view. cbn. auto. Qed.

Lemma once_lift (x : fault + A) : query_once (lift x).
Proof. destruct x; [apply once_raise|apply once_ret]. Qed.

Lemma once_bind (m : M A) (k : A -> M B) :
  query_once m -> (∀ a, query_once (k a)) -> query_once (bind m k).
Proof.
  intros Hm Hk s view. rewrite bind_run.
  destruct (Hm s view) as [Hm1 Hm2].
  destruct (m s) as [[a|e] s1 es1]; cbn [res final evs] in *; [|done].
  rewrite and_then_returned.
  destruct (Hk a s1 view) as [Hk1 Hk2].
  destruct (k a s1) as [x s2 es2]; rewrite after_run.
  cbn [res final evs] in *. rewrite queries_for_app. split.
  - intros Hc. destruct (Hm1 Hc) as [Hc1 ->].
    destruct (Hk1 Hc1) as [Hc2 ->]. done.
  - destruct Hm2 as [->|[-> Hc1]]; [done|].
    destruct (Hk1 Hc1) as [Hc2 ->]. right. done.
Qed.

Lemma once_try (m : M A) clauses :
  query_once m ->
  Forall (fun ch => ∀ f, query_once (snd ch f)) clauses ->
  query_once (try_except m clauses).
Proof.
  intros Hm Hcl s view. rewrite run_try.
  destruct (Hm s view) as [Hm1 Hm2].
  destruct (m s) as [[a|e] s1 es1]; cbn [res final evs] in *; [done|].
  unfold or_else. cbn [res final evs].
  assert (Hh : match find_clause e clauses with
               | Some h => query_once h
               | None => True
               end).
  { clear -Hcl. induction Hcl as [|[c h] cl Hh _ IH]; cbn; [done|].
    destruct (isinstance e c); [apply Hh|apply IH]. }
  destruct (find_clause e clauses) as [h|]; [|done].
  destruct (Hh s1 view) as [Hk1 Hk2].
  destruct (h s1) as [x s2 es2]; rewrite after_run.
  cbn [res final evs] in *. rewrite queries_for_app. split.
  - intros Hc. destruct (Hm1 Hc) as [Hc1 ->].
    destruct (Hk1 Hc1) as [Hc2 ->]. done.
  - destruct Hm2 as [->|[-> Hc1]]; [done|].
    destruct (Hk1 Hc1) as [Hc2 ->]. right. done.
Qed.
End QueryOnce.

Lemma once_st e : query_once (st e).
Proof. intros s view. cbn. auto. Qed.

Lemma once_load_view E view : query_once (dashboard.load_view E view).
Proof.
  intros s view'. cbn zeta.
  destruct (cache s !! view) as [[df els]|] eqn:Hc.
  - rewrite (load_view_hit E view s df els Hc). cbn [res final evs].
    rewrite queries_for_shows. auto.
  - rewrite load_view_miss, load_view_body_run by done.
    assert (Hins : ∀ x (c : gmap string (Table * list element)),
              c = cache s ->
              (is_Some (cache s !! view') -> is_Some (<[view := x]> c !! view')) ∧
              (view = view' -> is_Some (<[view := x]> c !! view'))).
    { intros x c ->. split.
      - intros H. destruct (decide (view = view')) as [->|Hne].
        + rewrite lookup_insert_eq. by eexists.
        + by rewrite lookup_insert_ne.
      - intros ->. rewrite lookup_insert_eq. by eexists. }
    assert (Hq : ∀ c (es : list event),
              (∀ e, In e es -> is_query_for view' e = false) ->
              queries_for view' (Connect c database_path :: Query c (sql_of view) :: es)
              = if bool_decide (view = view') then 1%nat else O).
    { intros c es Hes. unfold queries_for.
      cbn [List.filter]. change (is_query_for view' (Connect c database_path)) with false.
      cbv iota. rewrite is_query_for_query.
      assert (List.filter (is_query_for view') es = []) as Hnil.
      { induction es as [|e es IH]; [done|]. cbn [List.filter].
        rewrite (Hes e) by (by left). apply IH. intros; apply Hes; by right. }
      case_bool_decide; cbn [length]; by rewrite Hnil. }
    assert (Hmiss : is_Some (cache s !! view') -> view ≠ view').
    { intros [x Hx] ->. congruence. }
    destruct (connect_fault E) as [f|]; cbn zeta;
      [|destruct (view_answer E (db (connected s)) view) as [f|df]];
      cbn [res final evs set_cache cache closed connected set_conns set_db];
      rewrite ?Hq by (intros e [<-|[]]; reflexivity);
      (edestruct Hins as [Hi1 Hi2]; [reflexivity|]);
      (split; [intros Hc'; split; [by apply Hi1|];
               try (rewrite bool_decide_eq_false_2 by (by apply Hmiss)); done
              |try case_bool_decide; eauto]).
Qed.

(** Decomposes a program along its binds, branches and handlers; [leaf]
    closes the calls that are not decomposed. *)
Ltac along_with leaf :=
  unfold mbind, mret, M_bind, M_ret, st_stop;
  repeat lazymatch goal with
    | |- query_once (ret _) => apply once_ret
    | |- query_once (raise _) => apply once_raise
    | |- query_once (st _) => apply once_st
    | |- query_once (lift _) => apply once_lift
    | |- query_once (dashboard.load_view _ _) => apply once_load_view
    | |- query_once (bind _ _) => apply once_bind; [|intros ?]
    | |- query_once (try_except _ _) =>
        apply once_try;
        [|repeat lazymatch goal with
                 | |- Forall _ (_ :: _) => constructor; [intros ?; cbn [snd]|]
                 | |- Forall _ [] => constructor
                 end]
    | |- query_once (if ?b then _ else _) => destruct b
    | |- query_once (match ?x with _ => _ end) => destruct x
    | |- _ => leaf
    end.

Lemma once_plot E kind title cols df :
  query_once (dashboard.plot E kind title cols df).
Proof. unfold dashboard.plot. along_with fail. Qed.

Lemma once_project E df cols : query_once (dashboard.project E df cols).
Proof. unfold dashboard.project. along_with fail. Qed.

Lemma once_column df name : query_once (dashboard.column df name).
Proof. unfold dashboard.column. along_with fail. Qed.

Ltac along :=
  along_with ltac:(idtac; lazymatch goal with
                   | |- query_once (dashboard.plot _ _ _ _ _) => apply once_plot
                   | |- query_once (dashboard.project _ _ _) => apply once_project
                   | |- query_once (dashboard.column _ _) => apply once_column
                   end).

Lemma once_kpi_strip df : query_once (dashboard.kpi_strip df).
Proof. unfold dashboard.kpi_strip. along. Qed.

Lemma once_tab1 E : query_once (dashboard.tab1 E).
Proof. unfold dashboard.tab1, dashboard.chart_panel. along. Qed.

Lemma once_tab2 E : query_once (dashboard.tab2 E).
Proof. unfold dashboard.tab2, dashboard.chart_panel. along. Qed.

Lemma once_tab3 E : query_once (dashboard.tab3 E).
Proof. unfold dashboard.tab3, dashboard.chart_panel. along. Qed.

Lemma once_tab4 E : query_once (dashboard.tab4 E).
Proof. unfold dashboard.tab4. along. Qed.

Lemma once_tab5 E picked : query_once (dashboard.tab5 E picked).
Proof. unfold dashboard.tab5, dashboard.selectbox. along. Qed.

Lemma once_script E picked : query_once (dashboard.script E picked).
Proof.
  unfold dashboard.script, dashboard.report.
  along_with ltac:(idtac; lazymatch goal with
                   | |- query_once (dashboard.kpi_strip _) => apply once_kpi_strip
                   | |- query_once (dashboard.tab1 _) => apply once_tab1
                   | |- query_once (dashboard.tab2 _) => apply once_tab2
                   | |- query_once (dashboard.tab3 _) => apply once_tab3
                   | |- query_once (dashboard.tab4 _) => apply once_tab4
                   | |- query_once (dashboard.tab5 _ _) => apply once_tab5
                   end).
Qed.

Lemma once_run_script E picked : query_once (dashboard.run_script E picked).
Proof.
  intros s view. pose proof (once_script E picked s view) as H.
  unfold dashboard.run_script. cbn zeta in *.
  destruct (dashboard.script E picked s) as [[[]|[f|]] s' es];
    cbn [res final evs] in *; try done.
  rewrite queries_for_app.
  change (queries_for view [Show (st_exception f)]) with O.
  by rewrite Nat.add_0_r.
Qed.

Lemma once_session E picks : query_once (dashboard.session E picks).
Proof.
  induction picks as [|p picks IH]; cbn [dashboard.session].
  - apply once_ret.
  - unfold mbind, M_bind. apply once_bind; [apply once_run_script|done].
Qed.

(** C9: in a session of the dashboard, whatever the user picks from one
    run of the script to the next and whatever was cached when the session
    began, every view is queried at most once: a view that is requested
    again, by a later panel or a later run, is served from the cache of
    [load_view]. *)
Theorem session_queries_each_view_once E picks s view :
  (queries_for view (evs (dashboard.session E picks s)) <= 1)%nat.
Proof.
  destruct (once_session E picks s view) as [_ [->|[-> _]]]; lia.
Qed.

Lemma load_view_body_returns E view s :
  ∃ df, res (dashboard.load_view_body E view s) = Returned df.
Proof.
  rewrite load_view_body_run. destruct (connect_fault E); [by eexists|].
  cbn zeta. destruct (view_answer E (db (connected s)) view); by eexists.
Qed.

(** The second of two requests for a view queries nothing and returns
    what the first returned. *)
Lemma load_view_again E view s :
  let r1 := dashboard.load_view E view s in
  let r2 := dashboard.load_view E view (final r1) in
  res r2 = res r1 ∧ conn_events (evs r2) = [] ∧ final r2 = final r1.
Proof.
  cbn zeta.
  assert (Hshow : ∀ els, conn_events (Show <$> els) = []).
  { intros els. induction els as [|e els IH]; [done|exact IH]. }
  destruct (cache s !! view) as [[df els]|] eqn:Hc.
  - rewrite (load_view_hit E view s df els Hc). cbn [res final evs].
    rewrite (load_view_hit E view s df els Hc). cbn [res final evs]. auto.
  - destruct (load_view_body_returns E view s) as [df Hdf].
    rewrite (load_view_miss E view s Hc). cbn zeta. rewrite Hdf.
    cbn [res final evs].
    erewrite load_view_hit by (cbn; apply lookup_insert_eq).
    cbn [res final evs]. auto.
Qed.

(** ** What reaches the files *)

(** The frame the exporter serializes for a view is the frame a direct
    query of that view returns, and it is written through
    [to_csv(index=False)] to the file named after the view; what the file
    then holds is the serializer's business. *)
Lemma export_writes_what_query_returns E c view s df :
  c ∈ open_conns s -> export_views.RESULTS_DIR ∈ dirs s ->
  has_slash view = false -> is_Some (db s) ->
  res (query E view s) = Returned df ->
  write_fault E (export_views.csv_path_of view) = None ->
  evs (export_views.export_view_to_csv E c view s) =
    [ Query c (sql_of view);
      WriteFile (export_views.csv_path_of view) (to_csv E df);
      Print (export_views.ok_line view (len df)) ].
Proof.
  intros Hc Hd Hv [views Hdb] Hq Hw.
  rewrite export_view_to_csv_run by done. cbn [evs].
  rewrite query_run in Hq. destruct (connect_fault E); [done|].
  cbn [res] in Hq.
  assert (Hviews : db (connected s) = db s) by (cbn; by rewrite Hdb).
  rewrite Hviews in Hq.
  unfold export_events, export_outcome.
  destruct (view_answer E (db s) view) as [f|df']; [done|].
  injection Hq as ->. by rewrite Hw.
Qed.

(** * Further properties *)

(** ** One export, from any state *)

Lemma read_sql_query_run E view c s :
  read_sql_query E (sql_of view) c s =
  Run (if bool_decide (c ∈ open_conns s) then
         match view_answer E (db s) view with
         | inr df => Returned df
         | inl f => Raised (Fault f)
         end
       else Raised (Fault (OtherError "ProgrammingError"
                             "Cannot operate on a closed database.")))
      s [Query c (sql_of view)].
Proof.
  destruct (decide (c ∈ open_conns s)) as [Hc|Hc].
  - rewrite read_sql_query_open, bool_decide_eq_true_2 by done. reflexivity.
  - unfold read_sql_query. run. by rewrite !bool_decide_eq_false_2 by done.
Qed.

Lemma to_csv_file_cases E df path s :
  (to_csv_file E df path s =
     Run (Returned tt) (set_files (<[path := to_csv E df]> (files s)) s)
         [WriteFile path (to_csv E df)]) ∨
  (∃ f, to_csv_file E df path s = Run (Raised (Fault f)) s []) ∨
  (∃ f n, to_csv_file E df path s =
          Run (Raised (Fault f))
              (set_files (<[path := String.substring 0 n (to_csv E df)]>
                            (files s)) s) []).
Proof.
  unfold to_csv_file. run.
  destruct (negb (dirname path =? "")%string &&
            negb (bool_decide (dirname path ∈ dirs s))).
  - right. left. by eexists.
  - destruct (write_fault E path) as [f|]; [|left; reflexivity].
    right. destruct (written_before_fault E path) as [n|].
    + right. by exists f, n.
    + left. by exists f.
Qed.

(** X1: [export_view_to_csv] never raises, whatever the connection, the
    folder and the platform are: it returns [True] after it wrote the file
    of the view and printed the success line, and [False] after it printed
    the error line of a fault.  When it returns [False] nothing has changed
    but, at most, the file of the view: if the query returned and the write
    failed after the file was opened, the file holds the part of the
    serialized frame that had been written. *)
Theorem export_view_to_csv_outcome E c view s :
  let r := export_views.export_view_to_csv E c view s in
  (∃ df, res r = Returned true ∧
         evs r = [ Query c (sql_of view);
                   WriteFile (export_views.csv_path_of view) (to_csv E df);
                   Print (export_views.ok_line view (len df)) ] ∧
         final r = set_files (<[export_views.csv_path_of view := to_csv E df]>
                                (files s)) s) ∨
  (∃ f, res r = Returned false ∧
        evs r = Query c (sql_of view) :: (Print <$> error_lines view f) ∧
        (final r = s ∨
         ∃ df n,
           res (read_sql_query E (sql_of view) c s) = Returned df ∧
           final r = set_files (<[export_views.csv_path_of view :=
                                    String.substring 0 n (to_csv E df)]>
                                  (files s)) s)).
Proof.
  cbn zeta. unfold export_views.export_view_to_csv.
  rewrite run_try, run_bind.
  change ("SELECT * FROM " +:+ view) with (sql_of view).
  rewrite read_sql_query_run.
  assert (Hfail : ∀ (f : fault) s' cl,
            cl = [ (cls_OperationalError, fun e : fault =>
                      print ("  [ERROR] Error exporting " +:+ view +:+
                             ": View does not exist");;
                      print "    Hint: Make sure you've run views.sql first";;
                      ret false);
                   (cls_Exception, fun e : fault =>
                      print ("  [ERROR] Error exporting " +:+ view +:+ ": "
                             +:+ str e);;
                      ret false) ] ->
            or_else (Run (Raised (Fault f)) s' [Query c (sql_of view)]) cl =
            Run (Returned false) s'
                (Query c (sql_of view) :: (Print <$> error_lines view f))).
  { intros f s' cl ->. destruct f; reflexivity. }
  destruct (bool_decide (c ∈ open_conns s));
    [destruct (view_answer E (db s) view) as [f|df]|].
  - right. exists f. rewrite and_then_raised, (Hfail f _ _ eq_refl).
    cbn [res final evs]. by eauto.
  - rewrite and_then_returned, run_bind.
    destruct (to_csv_file_cases E df (export_views.csv_path_of view) s)
      as [->|[[f ->]|(f & n & ->)]].
    + left. exists df. done.
    + right. exists f. rewrite and_then_raised, after_run.
      cbn [app]. rewrite (Hfail f _ _ eq_refl). cbn [res final evs]. by eauto.
    + right. exists f. rewrite and_then_raised, after_run.
      cbn [app]. rewrite (Hfail f _ _ eq_refl). cbn [res final evs].
      split; [done|]. split; [done|]. right. by exists df, n.
  - right. eexists. rewrite and_then_raised, (Hfail _ _ _ eq_refl).
    cbn [res final evs]. by eauto.
Qed.

(** A full disk under an old export: the query returns, the write fails
    after the file was opened, and the export, which returns [False], has
    emptied the file that was there. *)
Lemma export_view_to_csv_truncates :
  let r := export_views.export_view_to_csv disk_full 0%nat "overall_kpis"
             after_an_export in
  res r = Returned false ∧
  files after_an_export !! "results/overall_kpis.csv" = Some "old" ∧
  files (final r) !! "results/overall_kpis.csv" = Some "".
Proof. vm_compute. done. Qed.

(** ** Every run of the exporter *)

Lemma mkdir_exist_ok_results E s :
  mkdir_exist_ok E export_views.RESULTS_DIR s =
  match mkdir_fails E s with
  | Some f => Run (Raised (Fault f)) s []
  | None => Run (Returned tt) (made_dir s) (mkdir_events s)
  end.
Proof.
  rewrite mkdir_exist_ok_run. unfold mkdir_fails, made_dir, mkdir_events.
  destruct (bool_decide (export_views.RESULTS_DIR ∈ dirs s)); [done|].
  destruct (bool_decide (is_Some (files s !! export_views.RESULTS_DIR)));
    [done|].
  destruct (mkdir_fault E); reflexivity.
Qed.

Lemma made_dir_has_results s : export_views.RESULTS_DIR ∈ dirs (made_dir s).
Proof.
  unfold made_dir. case_bool_decide; [done|].
  cbn. by apply elem_of_union_l, elem_of_singleton.
Qed.

Lemma made_dir_frame s :
  db (made_dir s) = db s ∧ files (made_dir s) = files s ∧
  open_conns (made_dir s) = open_conns s ∧ next_conn (made_dir s) = next_conn s ∧
  cache (made_dir s) = cache s.
Proof. unfold made_dir. by case_bool_decide. Qed.

Lemma main_run E s :
  is_Some (db s) ->
  export_views.main E s =
  match mkdir_fails E s with
  | Some f => Run (Raised (Fault f)) s (Print <$> banner)
  | None =>
      after ((Print <$> banner) ++ mkdir_events s ++
             [Print "[OK] Results folder 'results' ready"; Print ""])
            (export_views.connect_and_export E (made_dir s))
  end.
Proof.
  intros Hdb. rewrite main_with_database, mkdir_exist_ok_results by done.
  destruct (mkdir_fails E s); [reflexivity|].
  rewrite and_then_returned. unfold compose.
  destruct (export_views.connect_and_export E (made_dir s)) as [x s' es].
  rewrite !after_run. by rewrite <- !app_assoc.
Qed.

(** The events of a run that exports, and the state it leaves. *)
Lemma main_exports E s :
  is_Some (db s) -> mkdir_fails E s = None -> connect_fault E = None ->
  let c := next_conn s in
  let d := Some (default ∅ (db s)) in
  export_views.main E s =
  Run (Returned tt)
      (closed c (set_files (fold_left (export_file E d) export_views.VIEWS (files s))
                           (connected (made_dir s))))
      ((Print <$> banner) ++ mkdir_events s ++
       [Print "[OK] Results folder 'results' ready"; Print ""] ++
       [ Connect c export_views.DB_FILE;
         Print "[OK] Connected to bank.db"; Print "";
         Print "Exporting views to CSV..."; Print (str_mul "-" 70) ] ++
       concat (map (export_events E d c) export_views.VIEWS) ++
       [ Close c; Print (str_mul "-" 70);
         Print (export_views.summary_line
                  (length (List.filter (exports E d) export_views.VIEWS)));
         Print ("CSV files saved to: " +:+ os_path_join (cwd E) "results" +:+ "/");
         Print (str_mul "=" 70) ]).
Proof.
  intros Hdb Hmk Hconn c d. rewrite main_run, Hmk by done.
  rewrite connect_and_export_run by (done || apply made_dir_has_results).
  destruct (made_dir_frame s) as (Hd & Hf & Ho & Hn & Hc).
  rewrite after_run.
  assert (Hdb' : db (connected (made_dir s)) = d) by (cbn; by rewrite Hd).
  rewrite Hdb', Hn, Hf. by rewrite <- !app_assoc.
Qed.

Lemma main_cannot_connect E s f :
  is_Some (db s) -> mkdir_fails E s = None -> connect_fault E = Some f ->
  export_views.main E s =
  Run (Returned tt) (made_dir s)
      ((Print <$> banner) ++ mkdir_events s ++
       [ Print "[OK] Results folder 'results' ready"; Print "";
         Print ("[ERROR] Error connecting to database: " +:+ str f) ]).
Proof.
  intros Hdb Hmk Hconn. rewrite main_run, Hmk by done.
  rewrite (connect_and_export_fault E f) by done.
  rewrite after_run. by rewrite <- !app_assoc.
Qed.

(** The four ways a run of the exporter can go. *)
Lemma main_cases E s :
  (db s = None ∧ export_views.main E s =
     Run (Returned tt) s
         (Print <$> banner ++
            [ "[ERROR] Database file 'bank.db' not found!";
              "  Make sure bank.db exists in the current directory." ])) ∨
  (∃ f, is_Some (db s) ∧ mkdir_fails E s = Some f ∧
        export_views.main E s = Run (Raised (Fault f)) s (Print <$> banner)) ∨
  (∃ f, is_Some (db s) ∧ mkdir_fails E s = None ∧ connect_fault E = Some f ∧
        export_views.main E s =
        Run (Returned tt) (made_dir s)
            ((Print <$> banner) ++ mkdir_events s ++
             [ Print "[OK] Results folder 'results' ready"; Print "";
               Print ("[ERROR] Error connecting to database: " +:+ str f) ])) ∨
  (is_Some (db s) ∧ mkdir_fails E s = None ∧ connect_fault E = None).
Proof.
  destruct (db s) as [views|] eqn:Hdb.
  - right. assert (Hs : is_Some (db s)) by (by rewrite Hdb).
    rewrite <- Hdb.
    destruct (mkdir_fails E s) as [f|] eqn:Hmk.
    + left. exists f. by rewrite main_run, Hmk.
    + right. destruct (connect_fault E) as [f|] eqn:Hconn.
      * left. exists f. by rewrite (main_cannot_connect E s f).
      * right. done.
  - left. by rewrite main_no_database.
Qed.

(** X2: the only exception that leaves [main] is the one
    [create_results_folder] raises: every other run returns normally,
    whatever fails in connecting, querying or writing; and when creating
    the folder raises, the banner is all that was printed and nothing was
    changed. *)
Theorem main_raises_only_for_folder E s :
  res (export_views.main E s) = Returned tt ∨
  ∃ f, is_Some (db s) ∧ mkdir_fails E s = Some f ∧
       export_views.main E s = Run (Raised (Fault f)) s (Print <$> banner).
Proof.
  destruct (main_cases E s) as [[_ ->]|[(f & H1 & H2 & H3)|[(f & _ & _ & _ & ->)|(H1 & H2 & H3)]]].
  - by left.
  - right. by exists f.
  - by left.
  - left. by rewrite main_exports.
Qed.

(** X3: when bank.db exists and its folder is in place but the database
    cannot be opened, the exporter prints one connection error with the
    message of the fault and returns: it queries nothing and writes no
    file, and the results folder it created before connecting stays. *)
Theorem main_connect_failure E s f :
  is_Some (db s) -> mkdir_fails E s = None -> connect_fault E = Some f ->
  let r := export_views.main E s in
  res r = Returned tt ∧
  List.filter error_tagged (printed (evs r)) =
    [ "[ERROR] Error connecting to database: " +:+ str f ] ∧
  conn_events (evs r) = [] ∧ written (evs r) = [] ∧
  files (final r) = files s ∧
  export_views.RESULTS_DIR ∈ dirs (final r).
Proof.
  intros Hdb Hmk Hconn. cbn zeta. rewrite (main_cannot_connect E s f) by done.
  cbn [res final evs].
  assert (Hev : printed (mkdir_events s) = [] ∧ conn_events (mkdir_events s) = []
                ∧ written (mkdir_events s) = []).
  { unfold mkdir_events. by case_bool_decide. }
  destruct Hev as (Hp & Hc & Hw).
  split; [done|]. split.
  { rewrite !printed_app, printed_prints, Hp. reflexivity. }
  split.
  { rewrite !conn_events_app, conn_events_prints, Hc. reflexivity. }
  split.
  { unfold written in *. rewrite !omap_app, Hw.
    assert (omap (λ e, match e with WriteFile p _ => Some p | _ => None end)
              (Print <$> banner) = []) as -> by reflexivity.
    reflexivity. }
  split; [apply made_dir_frame|apply made_dir_has_results].
Qed.

Lemma main_connect_failure_witness :
  is_Some (db (world (Some all_views))) ∧
  mkdir_fails unreachable (world (Some all_views)) = None ∧
  connect_fault unreachable = Some (OperationalError "unable to open database file") ∧
  let r := export_views.main unreachable (world (Some all_views)) in
  res r = Returned tt ∧
  List.filter error_tagged (printed (evs r)) =
    [ "[ERROR] Error connecting to database: " +:+
      str (OperationalError "unable to open database file") ] ∧
  conn_events (evs r) = [] ∧ written (evs r) = [] ∧
  files (final r) = files (world (Some all_views)) ∧
  export_views.RESULTS_DIR ∈ dirs (final r).
Proof.
  assert (H1 : is_Some (db (world (Some all_views)))) by (by eexists).
  assert (H2 : mkdir_fails unreachable (world (Some all_views)) = None)
    by reflexivity.
  split; [exact H1|]. split; [exact H2|]. split; [reflexivity|].
  exact (main_connect_failure unreachable (world (Some all_views)) _ H1 H2 eq_refl).
Defined.

Lemma closed_connected_conns s :
  conn_fresh s ->
  open_conns (closed (next_conn s) (connected s)) = open_conns s.
Proof.
  intros Hf. cbn. apply set_eq. intros c.
  rewrite elem_of_difference, elem_of_union, elem_of_singleton.
  split; [intros [[->|H] Hne]; done|].
  intros H. split; [by right|]. intros ->. specialize (Hf _ H). lia.
Qed.

(** X4: the exporter leaves no connection behind: when connections are
    numbered in order, the connections open after a run of [main] are those
    that were open before it, on every path of the run. *)
Theorem main_restores_connections E s :
  conn_fresh s ->
  open_conns (final (export_views.main E s)) = open_conns s.
Proof.
  intros Hf.
  destruct (main_cases E s) as [[_ ->]|[(f & _ & _ & ->)|[(f & _ & _ & _ & ->)|(H1 & H2 & H3)]]].
  - done.
  - done.
  - apply made_dir_frame.
  - rewrite main_exports by done. cbn [final].
    destruct (made_dir_frame s) as (_ & _ & Ho & Hn & _).
    rewrite <- Hn.
    change (open_conns (closed (next_conn (made_dir s)) (connected (made_dir s)))
            = open_conns s).
    rewrite closed_connected_conns; [done|].
    intros c Hc. rewrite Hn. apply Hf. by rewrite <- Ho.
Qed.

Lemma main_restores_connections_witness :
  conn_fresh (world (Some one_view_missing)) ∧
  open_conns (final (export_views.main healthy (world (Some one_view_missing))))
  = open_conns (world (Some one_view_missing)).
Proof.
  assert (H : conn_fresh (world (Some one_view_missing))).
  { intros c Hc. cbn in Hc. by apply elem_of_empty in Hc. }
  split; [exact H|].
  exact (main_restores_connections healthy (world (Some one_view_missing)) H).
Defined.

Lemma written_app es es' : written (es ++ es') = written es ++ written es'.
Proof. apply omap_app. Qed.

Lemma written_prints ls : written (Print <$> ls) = [].
Proof. induction ls as [|l ls IH]; [done|exact IH]. Qed.

Lemma written_mkdir_events s : written (mkdir_events s) = [].
Proof. unfold mkdir_events. by case_bool_decide. Qed.

Lemma printed_mkdir_events s : printed (mkdir_events s) = [].
Proof. unfold mkdir_events. by case_bool_decide. Qed.

Lemma written_export E d c vs :
  written (concat (map (export_events E d c) vs)) =
  map export_views.csv_path_of (List.filter (exports E d) vs).
Proof.
  induction vs as [|v vs IH]; [done|].
  cbn [map concat List.filter]. rewrite written_app, IH.
  unfold export_events, exports.
  destruct (export_outcome E d v) as [f|df]; [|reflexivity].
  change (written (Print <$> error_lines v f) ++
          map export_views.csv_path_of (List.filter (exports E d) vs) =
          map export_views.csv_path_of (List.filter (exports E d) vs)).
  by rewrite written_prints.
Qed.

Lemma main_exports_written E s :
  is_Some (db s) -> mkdir_fails E s = None -> connect_fault E = None ->
  written (evs (export_views.main E s)) =
  map export_views.csv_path_of
      (List.filter (exports E (Some (default ∅ (db s)))) export_views.VIEWS).
Proof.
  intros H1 H2 H3. rewrite main_exports by done. cbn [evs].
  rewrite !written_app, written_prints, written_mkdir_events, written_export.
  cbn [written omap list_omap app]. by rewrite app_nil_r.
Qed.

Lemma summary_line_inj n k :
  export_views.summary_line n = export_views.summary_line k -> n = k.
Proof.
  unfold export_views.summary_line. intros H.
  apply (inj (String.app nl)) in H.
  apply (inj (String.app "Summary: ")) in H.
  apply append_cancel_r in H. by apply (inj pretty) in H.
Qed.

Lemma export_lines_head E d v l :
  In l (export_lines E d v) -> String.get 0 l = Some " "%char.
Proof.
  unfold export_lines, error_lines.
  destruct (export_outcome E d v) as [f|df].
  - destruct f; cbn [In]; intros [<-|H]; try reflexivity;
      try destruct H as [<-|[]]; try done; reflexivity.
  - intros [<-|[]]. reflexivity.
Qed.

(** X5: a summary line that [main] prints tells the truth: the count it
    shows is the number of CSV files the run wrote. *)
Theorem main_summary_is_accurate E s n :
  In (export_views.summary_line n) (printed (evs (export_views.main E s))) ->
  n = length (written (evs (export_views.main E s))).
Proof.
  assert (Hhead : String.get 0 (export_views.summary_line n) = Some "010"%char)
    by reflexivity.
  assert (Hno : ∀ ls, In (export_views.summary_line n) ls ->
            Forall (fun l => String.get 0 l ≠ Some "010"%char) ls -> False).
  { intros ls Hin Hall. rewrite Forall_forall in Hall.
    apply (Hall (export_views.summary_line n)); [by apply list_elem_of_In|done]. }
  destruct (main_cases E s)
    as [[_ ->]|[(f & _ & _ & ->)|[(f & _ & _ & _ & ->)|(H1 & H2 & H3)]]];
    cbn [evs].
  - rewrite printed_prints. intros Hin. exfalso. apply (Hno _ Hin).
    repeat (constructor; [done|]). constructor.
  - rewrite printed_prints. intros Hin. exfalso. apply (Hno _ Hin).
    repeat (constructor; [done|]). constructor.
  - rewrite !printed_app, printed_prints, printed_mkdir_events.
    intros Hin. exfalso. apply (Hno _ Hin).
    repeat (constructor; [done|]). constructor.
  - rewrite main_exports_written by done.
    rewrite main_exports by done. cbn [evs].
    rewrite !printed_app, printed_prints, printed_mkdir_events, printed_export.
    rewrite length_map.
    intros Hin. rewrite !in_app_iff in Hin.
    destruct Hin as [Hin|[Hin|[Hin|[Hin|[Hin|Hin]]]]].
    + exfalso. apply (Hno _ Hin). repeat (constructor; [done|]). constructor.
    + destruct Hin.
    + exfalso. apply (Hno _ Hin). repeat (constructor; [done|]). constructor.
    + exfalso. apply (Hno _ Hin). repeat (constructor; [done|]). constructor.
    + exfalso. apply in_concat in Hin as (ls & Hls & Hin).
      apply in_map_iff in Hls as (v & <- & _).
      apply export_lines_head in Hin. congruence.
    + destruct Hin as [Hin|[Hin|[Hin|[Hin|[]]]]].
      * exfalso. by rewrite <- Hin in Hhead.
      * symmetry. by apply summary_line_inj.
      * exfalso. by rewrite <- Hin in Hhead.
      * exfalso. by rewrite <- Hin in Hhead.
Qed.

Lemma main_summary_is_accurate_witness :
  In (export_views.summary_line 10)
     (printed (evs (export_views.main healthy (world (Some one_view_missing))))) ∧
  10%nat = length (written (evs (export_views.main healthy
                                   (world (Some one_view_missing))))).
Proof.
  assert (H : In (export_views.summary_line 10)
                (printed (evs (export_views.main healthy
                                 (world (Some one_view_missing)))))).
  { vm_compute. do 22 right. left. reflexivity. }
  split; [exact H|].
  exact (main_summary_is_accurate healthy (world (Some one_view_missing)) 10 H).
Defined.

Lemma export_files_again E d vs fs : ∀ ws,
  (∀ w, In w ws -> In w vs) ->
  (∀ v v', In v vs -> In v' vs ->
     export_views.csv_path_of v' = export_views.csv_path_of v -> v' = v) ->
  fold_left (export_file E d) ws (fold_left (export_file E d) vs fs) =
  fold_left (export_file E d) vs fs.
Proof.
  induction ws as [|w ws IH]; intros Hsub Hinj; [done|].
  cbn [fold_left].
  assert (Hw : export_file E d (fold_left (export_file E d) vs fs) w =
               fold_left (export_file E d) vs fs).
  { unfold export_file at 1.
    destruct (export_leaves E d w) as [content|] eqn:Hout; [|done].
    apply insert_id. apply export_files_left; [by apply Hsub; left|done|].
    intros v' Hv'. apply Hinj; [by apply Hsub; left|done]. }
  rewrite Hw. apply IH; [|done]. intros; apply Hsub; by right.
Qed.

Lemma VIEWS_paths_inj v v' :
  In v export_views.VIEWS -> In v' export_views.VIEWS ->
  export_views.csv_path_of v' = export_views.csv_path_of v -> v' = v.
Proof.
  intros Hv Hv'. pose proof VIEWS_plain as Hp. rewrite Forall_forall in Hp.
  apply csv_path_of_inj; apply Hp; by apply list_elem_of_In.
Qed.

(** X6: exporting twice is exporting once: a second run of [main] on the
    state the first one left ends the way the first did and leaves the same
    files with the same contents. *)
Theorem main_twice_same_files E s :
  let r1 := export_views.main E s in
  let r2 := export_views.main E (final r1) in
  res r2 = res r1 ∧ files (final r2) = files (final r1).
Proof.
  cbn zeta.
  destruct (main_cases E s)
    as [[H0 H]|[(f & H1 & H2 & H)|[(f & H1 & H2 & H3 & H)|(H1 & H2 & H3)]]].
  - rewrite H. cbn [final]. by rewrite H.
  - rewrite H. cbn [final]. by rewrite H.
  - rewrite H. cbn [final res].
    destruct (made_dir_frame s) as (Hd & Hf & _).
    assert (Hmk : mkdir_fails E (made_dir s) = None).
    { unfold mkdir_fails.
      by rewrite bool_decide_eq_true_2 by apply made_dir_has_results. }
    rewrite (main_cannot_connect E (made_dir s) f)
      by (done || by rewrite Hd).
    cbn [res final]. split; [done|].
    unfold made_dir at 1.
    by rewrite bool_decide_eq_true_2 by apply made_dir_has_results.
  - rewrite (main_exports E s) by done. cbn [final res].
    set (d := Some (default ∅ (db s))).
    set (F := fold_left (export_file E d) export_views.VIEWS (files s)).
    set (s1 := closed (next_conn s) (set_files F (connected (made_dir s)))).
    assert (Hdir : export_views.RESULTS_DIR ∈ dirs s1)
      by apply made_dir_has_results.
    assert (Hmk : mkdir_fails E s1 = None).
    { unfold mkdir_fails. by rewrite bool_decide_eq_true_2. }
    assert (Hdb1 : db s1 = d).
    { destruct (made_dir_frame s) as (Hd & _). subst s1 d. cbn. by rewrite Hd. }
    rewrite (main_exports E s1) by (done || by rewrite Hdb1).
    cbn [res final]. split; [done|].
    rewrite Hdb1. change (default ∅ d) with (default ∅ (db s)).
    fold d. change (files s1) with F.
    apply export_files_again; [done|]. apply VIEWS_paths_inj.
Qed.

(** X7: the exporter writes nowhere but to the files of the catalog: every
    path it writes is the CSV path of a catalog view, and a file at any
    other path is after the run what it was before. *)
Theorem main_writes_only_catalog_files E s :
  let r := export_views.main E s in
  Forall (fun path => ∃ v, In v export_views.VIEWS ∧
                           path = export_views.csv_path_of v)
         (written (evs r)) ∧
  ∀ path, (∀ v, In v export_views.VIEWS -> export_views.csv_path_of v ≠ path) ->
          files (final r) !! path = files s !! path.
Proof.
  cbn zeta.
  destruct (main_cases E s)
    as [[H0 H]|[(f & H1 & H2 & H)|[(f & H1 & H2 & H3 & H)|(H1 & H2 & H3)]]].
  - rewrite H. cbn [final evs]. by rewrite written_prints.
  - rewrite H. cbn [final evs]. by rewrite written_prints.
  - rewrite H. cbn [final evs].
    rewrite !written_app, written_prints, written_mkdir_events.
    split; [by constructor|]. intros. by destruct (made_dir_frame s) as (_ & -> & _).
  - rewrite main_exports_written by done. split.
    + apply Forall_forall. intros path Hp. apply list_elem_of_In in Hp.
      apply in_map_iff in Hp as (v & <- & Hv).
      apply List.filter_In in Hv as [Hv _]. by exists v.
    + intros path Hpath. rewrite main_exports by done. cbn [final].
      change (fold_left (export_file E (Some (default ∅ (db s))))
                export_views.VIEWS (files s) !! path = files s !! path).
      apply export_files_kept. intros v Hv _. by apply Hpath.
Qed.

Lemma create_results_folder_run E s :
  export_views.create_results_folder E s =
  match mkdir_fails E s with
  | Some f => Run (Raised (Fault f)) s []
  | None => Run (Returned tt) (made_dir s)
                (mkdir_events s ++ [Print "[OK] Results folder 'results' ready"])
  end.
Proof.
  unfold export_views.create_results_folder.
  rewrite run_bind, mkdir_exist_ok_results.
  destruct (mkdir_fails E s); reflexivity.
Qed.

(** X8: [create_results_folder] can be repeated: once a call returned, the
    folder exists, no file was touched, and a second call finds the folder
    and only prints its line again. *)
Theorem create_results_folder_idempotent E s :
  res (export_views.create_results_folder E s) = Returned tt ->
  let s1 := final (export_views.create_results_folder E s) in
  export_views.RESULTS_DIR ∈ dirs s1 ∧ files s1 = files s ∧
  export_views.create_results_folder E s1 =
    Run (Returned tt) s1 [Print "[OK] Results folder 'results' ready"].
Proof.
  cbn zeta. rewrite (create_results_folder_run E s).
  destruct (mkdir_fails E s); [done|]. intros _. cbn [final].
  split; [apply made_dir_has_results|]. split; [apply made_dir_frame|].
  rewrite create_results_folder_run.
  assert (Hid : made_dir (made_dir s) = made_dir s).
  { unfold made_dir at 1.
    by rewrite bool_decide_eq_true_2 by apply made_dir_has_results. }
  unfold mkdir_fails, mkdir_events.
  rewrite !bool_decide_eq_true_2 by apply made_dir_has_results.
  by rewrite Hid.
Qed.

Lemma create_results_folder_idempotent_witness :
  res (export_views.create_results_folder healthy no_database) = Returned tt ∧
  let s1 := final (export_views.create_results_folder healthy no_database) in
  export_views.RESULTS_DIR ∈ dirs s1 ∧ files s1 = files no_database ∧
  export_views.create_results_folder healthy s1 =
    Run (Returned tt) s1 [Print "[OK] Results folder 'results' ready"].
Proof.
  split; [reflexivity|].
  exact (create_results_folder_idempotent healthy no_database eq_refl).
Defined.

Lemma main_writes_only_catalog_files_witness :
  (∀ v, In v export_views.VIEWS -> export_views.csv_path_of v ≠ "notes.txt") ∧
  files (final (export_views.main healthy (world (Some one_view_missing))))
    !! "notes.txt" =
  files (world (Some one_view_missing)) !! "notes.txt".
Proof.
  assert (H : ∀ v, In v export_views.VIEWS ->
                export_views.csv_path_of v ≠ "notes.txt").
  { intros v Hv. repeat (destruct Hv as [<-|Hv]; [vm_compute; discriminate|]).
    destruct Hv. }
  split; [exact H|].
  exact (proj2 (main_writes_only_catalog_files healthy
                  (world (Some one_view_missing))) "notes.txt" H).
Defined.

(** ** What a run of the dashboard can end in *)

Lemma script_handlers_return (r : run unit) :
  let r' := or_else r
    [ (cls_OperationalError, fun e : fault =>
         st (st_error ("⚠️ Database error: " +:+ str e));;
         st (st_info "💡 Make sure you've created the views by running views.sql first!"));
      (cls_FileNotFoundError, fun _ : fault =>
         st (st_error "⚠️ Database file 'bank.db' not found!");;
         st (st_info "💡 Please ensure bank.db exists in the current directory."));
      (cls_Exception, fun e : fault =>
         st (st_error ("⚠️ An error occurred: " +:+ str e))) ] in
  (res r' = Returned tt ∨ res r' = Raised StopException) ∧ final r' = final r.
Proof.
  destruct r as [[[]|[f|]] s es]; cbn zeta.
  - split; [by left|done].
  - destruct f; (split; [by left|reflexivity]).
  - split; [by right|done].
Qed.

(** X9: no exception of the report reaches the user as a traceback: a run
    of the script either returns or is ended by [st.stop()]; every fault
    raised inside the [try] is turned into a banner by one of its clauses. *)
Theorem script_never_raises_fault E picked s :
  res (dashboard.script E picked s) = Returned tt ∨
  res (dashboard.script E picked s) = Raised StopException.
Proof.
  unfold dashboard.script. run. rewrite run_try.
  apply script_handlers_return.
Qed.

(** ** What the cache of [load_view] keeps *)

Lemma shown_shows els : shown (Show <$> els) = els.
Proof.
  induction els as [|e els IH]; [done|].
  change (e :: shown (Show <$> els) = e :: els). by rewrite IH.
Qed.

Lemma conn_events_shows els : conn_events (Show <$> els) = [].
Proof. induction els as [|e els IH]; [done|exact IH]. Qed.

(** X10: a failed load is cached like any other result: once [load_view]
    has failed for a view, every later call for that view in the same
    process returns the empty frame and shows the old error again without
    touching the database, also when the database has been repaired since. *)
Theorem load_view_failure_is_cached E E' view s s' :
  cache s !! view = None ->
  (∃ e, res (query E view s) = Raised e) ->
  cache s' = cache (final (dashboard.load_view E view s)) ->
  ∃ f, dashboard.load_view E' view s' =
       Run (Returned empty_frame) s' [Show (loading_error view f)].
Proof.
  intros Hc [e He] Hs'. rewrite query_run in He.
  rewrite load_view_miss, load_view_body_run in Hs' by done.
  destruct (connect_fault E) as [f|].
  - exists f.
    apply (load_view_hit E' view s' empty_frame [loading_error view f]).
    rewrite Hs'. cbn. apply lookup_insert_eq.
  - cbn zeta in Hs'. cbn [res] in He.
    destruct (view_answer E (db (connected s)) view) as [f|df]; [|done].
    exists f.
    apply (load_view_hit E' view s' empty_frame [loading_error view f]).
    rewrite Hs'. cbn. apply lookup_insert_eq.
Qed.

Lemma load_view_failure_is_cached_witness :
  let s := world (Some one_view_missing) in
  let s' := set_db (Some all_views)
              (final (dashboard.load_view healthy "high_value_customers" s)) in
  cache s !! "high_value_customers" = None ∧
  (∃ e, res (query healthy "high_value_customers" s) = Raised e) ∧
  cache s' = cache (final (dashboard.load_view healthy "high_value_customers" s)) ∧
  is_Some (all_views !! "high_value_customers") ∧
  ∃ f, dashboard.load_view healthy "high_value_customers" s' =
       Run (Returned empty_frame) s' [Show (loading_error "high_value_customers" f)].
Proof.
  cbn zeta.
  assert (H2 : ∃ e, res (query healthy "high_value_customers"
                            (world (Some one_view_missing))) = Raised e).
  { eexists. vm_compute. reflexivity. }
  split; [reflexivity|]. split; [exact H2|]. split; [reflexivity|].
  split; [vm_compute; by eexists|].
  exact (load_view_failure_is_cached healthy healthy "high_value_customers"
           (world (Some one_view_missing))
           (set_db (Some all_views)
              (final (dashboard.load_view healthy "high_value_customers"
                        (world (Some one_view_missing)))))
           eq_refl H2 eq_refl).
Defined.

(** X11: asking twice is asking once: a second [load_view] for the same
    view, right after the first, returns the same frame and renders the
    same elements, without any traffic with the database and without
    changing the state. *)
Theorem load_view_repeated E view s :
  let r1 := dashboard.load_view E view s in
  let r2 := dashboard.load_view E view (final r1) in
  res r2 = res r1 ∧ final r2 = final r1 ∧
  shown (evs r2) = shown (evs r1) ∧ conn_events (evs r2) = [].
Proof.
  cbn zeta.
  destruct (cache s !! view) as [[df els]|] eqn:Hc.
  - rewrite (load_view_hit E view s df els Hc). cbn [res final evs].
    rewrite (load_view_hit E view s df els Hc). cbn [res final evs].
    by rewrite conn_events_shows.
  - destruct (load_view_body_returns E view s) as [df Hdf].
    rewrite (load_view_miss E view s Hc). cbn zeta. rewrite Hdf.
    cbn [res final evs].
    erewrite load_view_hit by (cbn; apply lookup_insert_eq).
    cbn [res final evs]. by rewrite shown_shows, conn_events_shows.
Qed.

(** ** What a session keeps *)

Section Keeps.
Context {A B : Type} (I : State -> Prop) (P : event -> Prop).

Lemma keeps_ret (a : A) : keeps I P (ret a).
Proof. intros s Hs. by split. Qed.

Lemma keeps_raise e : keeps I P (@raise A e).
Proof. intros s Hs. by split. Qed.

Lemma keeps_lift (x : fault + A) : keeps I P (lift x).
Proof. destruct x; [apply keeps_raise|apply keeps_ret]. Qed.

Lemma keeps_bind (m : M A) (k : A -> M B) :
  keeps I P m -> (∀ a, keeps I P (k a)) -> keeps I P (bind m k).
Proof.
  intros Hm Hk s Hs. rewrite bind_run.
  destruct (Hm s Hs) as [Hm1 Hm2].
  destruct (m s) as [[a|e] s1 es1]; cbn [res final evs] in *; [|done].
  rewrite and_then_returned.
  destruct (Hk a s1 Hm1) as [Hk1 Hk2].
  destruct (k a s1) as [x s2 es2]; rewrite after_run.
  cbn [res final evs] in *. split; [done|]. by apply Forall_app.
Qed.

Lemma keeps_try (m : M A) clauses :
  keeps I P m ->
  Forall (fun ch => ∀ f, keeps I P (snd ch f)) clauses ->
  keeps I P (try_except m clauses).
Proof.
  intros Hm Hcl s Hs. rewrite run_try.
  destruct (Hm s Hs) as [Hm1 Hm2].
  destruct (m s) as [[a|e] s1 es1]; cbn [res final evs] in *; [done|].
  unfold or_else. cbn [res final evs].
  assert (Hh : match find_clause e clauses with
               | Some h => keeps I P h
               | None => True
               end).
  { clear -Hcl. induction Hcl as [|[c h] cl Hh _ IH]; cbn; [done|].
    destruct (isinstance e c); [apply Hh|apply IH]. }
  destruct (find_clause e clauses) as [h|]; [|done].
  destruct (Hh s1 Hm1) as [Hk1 Hk2].
  destruct (h s1) as [x s2 es2]; rewrite after_run.
  cbn [res final evs] in *. split; [done|]. by apply Forall_app.
Qed.
End Keeps.

Lemma lookup_option_catalog label view :
  dashboard.lookup_option label dashboard.view_options = Some view ->
  In view export_views.VIEWS.
Proof.
  unfold dashboard.view_options. cbn [dashboard.lookup_option].
  repeat (match goal with
          | |- context [String.eqb label ?l] => destruct (String.eqb label l)
          end;
          [intros [= <-]; cbn; tauto|]).
  done.
Qed.

(** The dashboard keeps every invariant [load_view] keeps for the views of
    the catalog, and does to the world only what [load_view] does. *)
Section DashboardKeeps.
Variable I : State -> Prop.
Hypothesis load_view_keeps :
  ∀ E view, In view export_views.VIEWS ->
            keeps I dashboard_event (dashboard.load_view E view).

Lemma keeps_st e : keeps I dashboard_event (st e).
Proof. intros s Hs. split; [done|]. by repeat constructor. Qed.

Ltac keep_with leaf :=
  unfold mbind, mret, M_bind, M_ret, st_stop;
  repeat lazymatch goal with
    | |- keeps _ _ (ret _) => apply keeps_ret
    | |- keeps _ _ (raise _) => apply keeps_raise
    | |- keeps _ _ (st _) => apply keeps_st
    | |- keeps _ _ (lift _) => apply keeps_lift
    | |- keeps _ _ (dashboard.load_view _ _) =>
        apply load_view_keeps; cbn; tauto
    | |- keeps _ _ (bind _ _) => apply keeps_bind; [|intros ?]
    | |- keeps _ _ (try_except _ _) =>
        apply keeps_try;
        [|repeat lazymatch goal with
                 | |- Forall _ (_ :: _) => constructor; [intros ?; cbn [snd]|]
                 | |- Forall _ [] => constructor
                 end]
    | |- keeps _ _ (if ?b then _ else _) => destruct b
    | |- keeps _ _ (match ?x with _ => _ end) => destruct x
    | |- _ => leaf
    end.

Lemma keeps_kpi_strip df : keeps I dashboard_event (dashboard.kpi_strip df).
Proof. unfold dashboard.kpi_strip. keep_with fail. Qed.

Lemma keeps_tab1 E : keeps I dashboard_event (dashboard.tab1 E).
Proof.
  unfold dashboard.tab1, dashboard.chart_panel, dashboard.plot. keep_with fail.
Qed.

Lemma keeps_tab2 E : keeps I dashboard_event (dashboard.tab2 E).
Proof.
  unfold dashboard.tab2, dashboard.chart_panel, dashboard.plot. keep_with fail.
Qed.

Lemma keeps_tab3 E : keeps I dashboard_event (dashboard.tab3 E).
Proof.
  unfold dashboard.tab3, dashboard.chart_panel, dashboard.plot,
    dashboard.project.
  keep_with fail.
Qed.

Lemma keeps_tab4 E : keeps I dashboard_event (dashboard.tab4 E).
Proof.
  unfold dashboard.tab4, dashboard.plot, dashboard.column. keep_with fail.
Qed.

Lemma keeps_tab5 E picked : keeps I dashboard_event (dashboard.tab5 E picked).
Proof.
  unfold dashboard.tab5, dashboard.selectbox, mbind, M_bind.
  apply keeps_bind; [apply keeps_st|intros _].
  apply keeps_bind; [keep_with fail|intros sel].
  destruct sel as [l|]; cbn [option_bind]; [|apply keeps_ret].
  destruct (dashboard.lookup_option l dashboard.view_options) as [view|]
    eqn:Hview; [|apply keeps_ret].
  apply lookup_option_catalog in Hview.
  apply keeps_bind; [by apply load_view_keeps|intros df]. keep_with fail.
Qed.

Lemma keeps_script E picked : keeps I dashboard_event (dashboard.script E picked).
Proof.
  unfold dashboard.script, dashboard.report.
  keep_with ltac:(idtac; lazymatch goal with
                  | |- keeps _ _ (dashboard.kpi_strip _) => apply keeps_kpi_strip
                  | |- keeps _ _ (dashboard.tab1 _) => apply keeps_tab1
                  | |- keeps _ _ (dashboard.tab2 _) => apply keeps_tab2
                  | |- keeps _ _ (dashboard.tab3 _) => apply keeps_tab3
                  | |- keeps _ _ (dashboard.tab4 _) => apply keeps_tab4
                  | |- keeps _ _ (dashboard.tab5 _ _) => apply keeps_tab5
                  end).
Qed.

Lemma keeps_run_script E picked :
  keeps I dashboard_event (dashboard.run_script E picked).
Proof.
  intros s Hs. destruct (keeps_script E picked s Hs) as [H1 H2].
  unfold dashboard.run_script.
  destruct (dashboard.script E picked s) as [[[]|[f|]] s' es];
    cbn [res final evs] in *; try done.
  split; [done|]. apply Forall_app. split; [done|]. by repeat constructor.
Qed.

Lemma keeps_session E picks :
  keeps I dashboard_event (dashboard.session E picks).
Proof.
  induction picks as [|p picks IH]; cbn [dashboard.session].
  - apply keeps_ret.
  - unfold mbind, M_bind. apply keeps_bind; [apply keeps_run_script|done].
Qed.
End DashboardKeeps.

Lemma load_view_cases E view s :
  (∃ df els, cache s !! view = Some (df, els) ∧
     dashboard.load_view E view s = Run (Returned df) s (Show <$> els)) ∨
  (∃ f, cache s !! view = None ∧
     dashboard.load_view E view s =
     Run (Returned empty_frame)
         (set_cache (<[view := (empty_frame, [loading_error view f])]> (cache s)) s)
         [Show (loading_error view f)]) ∨
  (∃ f, cache s !! view = None ∧
     dashboard.load_view E view s =
     Run (Returned empty_frame)
         (set_cache (<[view := (empty_frame, [loading_error view f])]> (cache s))
                    (connected s))
         [Connect (next_conn s) database_path; Query (next_conn s) (sql_of view);
          Show (loading_error view f)]) ∨
  (∃ df, cache s !! view = None ∧
     dashboard.load_view E view s =
     Run (Returned df)
         (set_cache (<[view := (df, [])]> (cache s))
                    (closed (next_conn s) (connected s)))
         [Connect (next_conn s) database_path; Query (next_conn s) (sql_of view);
          Close (next_conn s)]).
Proof.
  destruct (cache s !! view) as [[df els]|] eqn:Hc.
  - left. exists df, els. split; [done|]. by apply load_view_hit.
  - right. rewrite load_view_miss, load_view_body_run by done.
    destruct (connect_fault E) as [f|].
    + left. by exists f.
    + right. cbn zeta.
      destruct (view_answer E (db (connected s)) view) as [f|df].
      * left. by exists f.
      * right. by exists df.
Qed.

Lemma load_view_keeps_files E view fs ds :
  In view export_views.VIEWS ->
  keeps (fun s => files s = fs ∧ dirs s = ds) dashboard_event
        (dashboard.load_view E view).
Proof.
  intros Hv s Hs.
  assert (Hq : dashboard_event (Query (next_conn s) (sql_of view)))
    by (by exists view).
  destruct (load_view_cases E view s)
    as [(df & els & _ & ->)|[(f & _ & ->)|[(f & _ & ->)|(df & _ & ->)]]];
    cbn [final evs]; (split; [done|]).
  - induction els; by constructor.
  - by repeat constructor.
  - by repeat constructor.
  - by repeat constructor.
Qed.

Lemma connected_fresh s : conn_fresh s -> conn_fresh (connected s).
Proof.
  intros Hf c. cbn. rewrite elem_of_union, elem_of_singleton.
  intros [->|Hc]; [lia|]. specialize (Hf c Hc). lia.
Qed.

Lemma closed_fresh c s : conn_fresh s -> conn_fresh (closed c s).
Proof.
  intros Hf c'. cbn. rewrite elem_of_difference. intros [Hc _]. by apply Hf.
Qed.

Lemma cache_ok_insert s s' view df els :
  cache_ok s -> cache s' = <[view := (df, els)]> (cache s) ->
  els = [] ∨ (df = empty_frame ∧ ∃ f, els = [loading_error view f]) ->
  cache_ok s'.
Proof.
  intros Hok Hs' Hnew view' df' els'. rewrite Hs'.
  destruct (decide (view = view')) as [<-|Hne].
  - rewrite lookup_insert_eq. by intros [= <- <-].
  - rewrite lookup_insert_ne by done. apply Hok.
Qed.

Lemma load_view_keeps_order E view :
  In view export_views.VIEWS ->
  keeps (fun s => cache_ok s ∧ conn_fresh s) dashboard_event
        (dashboard.load_view E view).
Proof.
  intros Hv s [Hok Hf].
  assert (Hq : dashboard_event (Query (next_conn s) (sql_of view)))
    by (by exists view).
  destruct (load_view_cases E view s)
    as [(df & els & _ & ->)|[(f & _ & ->)|[(f & _ & ->)|(df & _ & ->)]]];
    cbn [final evs].
  - split; [done|]. induction els; by constructor.
  - split; [|by repeat constructor]. split; [|done].
    eapply (cache_ok_insert s); [done|reflexivity|]. right. eauto.
  - split; [|by repeat constructor]. split; [|by apply connected_fresh].
    eapply (cache_ok_insert s); [done|reflexivity|]. right. eauto.
  - split; [|by repeat constructor].
    split; [|by apply closed_fresh, connected_fresh].
    eapply (cache_ok_insert s); [done|reflexivity|]. by left.
Qed.

Lemma dashboard_events_read_only es :
  Forall dashboard_event es ->
  written es = [] ∧ printed es = [] ∧ ∀ path, ¬ In (Mkdir path) es.
Proof.
  induction 1 as [|e es He _ (IH1 & IH2 & IH3)].
  - repeat split. intros path [].
  - destruct e; try done; cbn [written printed omap list_omap];
      fold (written es); fold (printed es);
      (split; [done|]); (split; [done|]);
      intros path [[=]|Hin]; by apply (IH3 path).
Qed.

(** X12: the dashboard only reads: over a whole session, whatever the user
    picks, it writes no file, creates no directory and prints nothing, and
    the files and directories are after the session what they were before
    (the database file apart, which [sqlite3.connect] creates when it is
    absent). *)
Theorem session_is_read_only E picks s :
  let r := dashboard.session E picks s in
  files (final r) = files s ∧ dirs (final r) = dirs s ∧
  written (evs r) = [] ∧ printed (evs r) = [] ∧
  ∀ path, ¬ In (Mkdir path) (evs r).
Proof.
  cbn zeta.
  destruct (keeps_session _ (fun E view Hv =>
              load_view_keeps_files E view (files s) (dirs s) Hv) E picks s)
    as [[Hf Hd] Hev]; [done|].
  split; [done|]. split; [done|]. by apply dashboard_events_read_only.
Qed.

(** X13: the dashboard never sends the database anything but
    [SELECT * FROM] one of the eleven views of the catalog, whatever label
    the view picker hands it. *)
Theorem session_queries_catalog_only E picks s c sql :
  In (Query c sql) (evs (dashboard.session E picks s)) ->
  ∃ view, In view export_views.VIEWS ∧ sql = sql_of view.
Proof.
  intros Hin.
  destruct (keeps_session _ (fun E view Hv =>
              load_view_keeps_files E view (files s) (dirs s) Hv) E picks s)
    as [_ Hev]; [done|].
  rewrite Forall_forall in Hev. apply list_elem_of_In in Hin.
  exact (Hev _ Hin).
Qed.

Lemma session_queries_catalog_only_witness :
  In (Query 0 "SELECT * FROM overall_kpis")
     (evs (dashboard.session healthy ["'; DROP TABLE customers; --"]
             (world (Some all_views)))) ∧
  ∃ view, In view export_views.VIEWS ∧
          "SELECT * FROM overall_kpis" = sql_of view.
Proof.
  assert (H : In (Query 0 "SELECT * FROM overall_kpis")
                (evs (dashboard.session healthy ["'; DROP TABLE customers; --"]
                        (world (Some all_views))))).
  { vm_compute. do 5 right. left. reflexivity. }
  split; [exact H|].
  exact (session_queries_catalog_only healthy _ _ _ _ H).
Defined.

(** X14: a session keeps its cache and its connections in order: if every
    cached entry is a frame without banner or the empty frame with the
    error banner of its own view, and every open connection has a number
    below the next one, then the same holds after the session. *)
Theorem session_keeps_order E picks s :
  cache_ok s -> conn_fresh s ->
  cache_ok (final (dashboard.session E picks s)) ∧
  conn_fresh (final (dashboard.session E picks s)).
Proof.
  intros Hok Hf.
  by destruct (keeps_session _ (fun E view Hv => load_view_keeps_order E view Hv)
                 E picks s (conj Hok Hf)) as [H _].
Qed.

Lemma session_keeps_order_witness :
  cache_ok no_database ∧ conn_fresh no_database ∧
  cache_ok (final (dashboard.session healthy ["Overall KPIs"] no_database)) ∧
  conn_fresh (final (dashboard.session healthy ["Overall KPIs"] no_database)).
Proof.
  assert (H1 : cache_ok no_database).
  { intros view df els H. cbn in H. by rewrite lookup_empty in H. }
  assert (H2 : conn_fresh no_database).
  { intros c Hc. cbn in Hc. by apply elem_of_empty in Hc. }
  split; [exact H1|]. split; [exact H2|].
  exact (session_keeps_order healthy ["Overall KPIs"] no_database H1 H2).
Defined.

(** ** One chart panel *)

Lemma chart_panel_run E view kind title cols s df s1 es1 :
  dashboard.load_view E view s = Run (Returned df) s1 es1 ->
  dashboard.chart_panel E view kind title cols s =
  if is_empty df then Run (Returned tt) s1 es1
  else match chart_fault E kind cols df with
       | Some f => Run (Raised (Fault f)) s1 es1
       | None => Run (Returned tt) s1
                     (es1 ++ [Show (st_plotly_chart (Figure kind title df))])
       end.
Proof.
  intros Hload. unfold dashboard.chart_panel. rewrite run_bind, Hload.
  unfold and_then, after. cbn [res final evs].
  unfold dashboard.plot.
  destruct (is_empty df), (chart_fault E kind cols df); cbn [negb];
    unfold mbind, M_bind, bind, and_then, after, mret, M_ret, ret, raise,
      st, emit; cbn [res final evs]; by rewrite ?app_nil_r.
Qed.

(** X15: a panel whose view gives no data draws nothing and does not fail:
    when the view is not cached and querying it raises or returns a frame
    without rows, the panel returns normally, whatever Plotly would make of
    the frame, and renders no chart: only [load_view]'s error banner, if
    the query raised. *)
Theorem chart_panel_without_data E view kind title cols s :
  cache s !! view = None ->
  match res (query E view s) with
  | Returned df => is_empty df = true
  | Raised _ => True
  end ->
  let r := dashboard.chart_panel E view kind title cols s in
  res r = Returned tt ∧ List.filter is_panel (shown (evs r)) = [] ∧
  List.filter is_error (shown (evs r)) =
    match res (query E view s) with
    | Returned _ => []
    | Raised (Fault f) => [loading_error view f]
    | Raised StopException => []
    end.
Proof.
  intros Hc. rewrite query_run. cbn zeta.
  pose proof (load_view_miss E view s Hc) as Hrun.
  rewrite load_view_body_run in Hrun. cbn zeta in Hrun.
  destruct (connect_fault E) as [f|]; cbn [res final evs] in *.
  - intros _.
    rewrite (chart_panel_run E view kind title cols s _ _ _ Hrun). done.
  - destruct (view_answer E (db (connected s)) view) as [f|df];
      cbn [res final evs] in *; intros Hempty;
      rewrite (chart_panel_run E view kind title cols s _ _ _ Hrun);
      rewrite ?Hempty; done.
Qed.

Lemma chart_panel_without_data_witness :
  let s := world (Some one_view_missing) in
  cache s !! "high_value_customers" = None ∧
  match res (query healthy "high_value_customers" s) with
  | Returned df => is_empty df = true
  | Raised _ => True
  end ∧
  let r := dashboard.chart_panel healthy "high_value_customers" "bar" "t" [] s in
  res r = Returned tt ∧ List.filter is_panel (shown (evs r)) = [] ∧
  List.filter is_error (shown (evs r)) =
    match res (query healthy "high_value_customers" s) with
    | Returned _ => []
    | Raised (Fault f) => [loading_error "high_value_customers" f]
    | Raised StopException => []
    end.
Proof.
  cbn zeta.
  assert (H2 : match res (query healthy "high_value_customers"
                            (world (Some one_view_missing))) with
               | Returned df => is_empty df = true
               | Raised _ => True
               end) by (vm_compute; exact I).
  split; [reflexivity|]. split; [exact H2|].
  exact (chart_panel_without_data healthy "high_value_customers" "bar" "t" []
           (world (Some one_view_missing)) eq_refl H2).
Defined.

(** X16: a panel whose view has data draws one chart of exactly the frame
    the query returned, and the connection it used is closed: when the
    view is not cached, the query returns a frame with rows and Plotly
    accepts it, the panel renders that chart and nothing else. *)
Theorem chart_panel_with_data E view kind title cols s df :
  cache s !! view = None ->
  res (query E view s) = Returned df -> is_empty df = false ->
  chart_fault E kind cols df = None ->
  let r := dashboard.chart_panel E view kind title cols s in
  res r = Returned tt ∧
  shown (evs r) = [st_plotly_chart (Figure kind title df)] ∧
  conn_events (evs r) =
    [ Connect (next_conn s) database_path; Query (next_conn s) (sql_of view);
      Close (next_conn s) ].
Proof.
  intros Hc Hq Hne Hplot. rewrite query_run in Hq. cbn zeta.
  assert (Hrun : dashboard.load_view E view s =
                 Run (Returned df)
                     (set_cache (<[view := (df, [])]> (cache s))
                                (closed (next_conn s) (connected s)))
                     [Connect (next_conn s) database_path;
                      Query (next_conn s) (sql_of view); Close (next_conn s)]).
  { rewrite load_view_miss, load_view_body_run by done.
    destruct (connect_fault E); [done|]. cbn zeta. cbn [res] in Hq.
    destruct (view_answer E (db (connected s)) view); [done|].
    by injection Hq as ->. }
  rewrite (chart_panel_run E view kind title cols s _ _ _ Hrun), Hne, Hplot.
  done.
Qed.

Lemma chart_panel_with_data_witness :
  let s := world (Some all_views) in
  let df := one_row ["branch"; "churn_rate_pct"] in
  cache s !! "churn_by_branch" = None ∧
  res (query healthy "churn_by_branch" s) = Returned df ∧
  is_empty df = false ∧
  chart_fault healthy "bar" ["branch"; "churn_rate_pct"] df = None ∧
  let r := dashboard.chart_panel healthy "churn_by_branch" "bar"
             "Churn Rate by Branch" ["branch"; "churn_rate_pct"] s in
  res r = Returned tt ∧
  shown (evs r) = [st_plotly_chart (Figure "bar" "Churn Rate by Branch" df)] ∧
  conn_events (evs r) =
    [ Connect (next_conn s) database_path;
      Query (next_conn s) (sql_of "churn_by_branch");
      Close (next_conn s) ].
Proof.
  cbn zeta.
  assert (H2 : res (query healthy "churn_by_branch" (world (Some all_views))) =
               Returned (one_row ["branch"; "churn_rate_pct"]))
    by (vm_compute; reflexivity).
  split; [reflexivity|]. split; [exact H2|]. split; [reflexivity|].
  split; [reflexivity|].
  exact (chart_panel_with_data healthy "churn_by_branch" "bar"
           "Churn Rate by Branch" ["branch"; "churn_rate_pct"]
           (world (Some all_views)) _ eq_refl H2 eq_refl eq_refl).
Defined.

(** ** The KPI strip *)




Lemma format_f_numeric comma prec v :
  (∃ t, format_f comma prec v = inr t) ↔ is_numeric v = true.
Proof.
  destruct v; cbn [format_f is_numeric]; split; try done; eauto.
  - by intros [t [=]].
  - by intros [t [=]].
Qed.


Lemma sqlite_number_numeric v : sqlite_number v = true -> is_numeric v = true.
Proof. by destruct v. Qed.

Lemma int_of_numeric v : is_numeric v = true -> ∃ n, int_of v = inr n.
Proof. destruct v; cbn [is_numeric int_of]; by eauto. Qed.

Lemma int_of_not_null v n : int_of v = inr n -> v ≠ VNull.
Proof. by intros H ->. Qed.

Lemma format_f_not_null comma prec v t :
  format_f comma prec v = inr t -> v ≠ VNull ∧ is_numeric v = true.
Proof.
  intros H. split; [by intros ->|].
  apply (format_f_numeric comma prec). by eauto.
Qed.

(** X17: on a KPI view of one row, as the aggregate [overall_kpis] is, the
    KPI strip renders its four metrics when each of its four columns holds
    a number of SQLite, an INTEGER (of 64 bits) or a finite REAL; and it
    renders only if the four columns are there, none of the four cells is
    NULL, and the three cells that are formatted with [f] hold numbers: a
    missing column, a NULL, or a text where a number is formatted, makes it
    raise instead. *)
Theorem kpi_strip_renders_numbers df s :
  len df = 1%nat ->
  let cols := [ "total_customers"; "overall_churn_rate_pct"; "avg_balance";
                "total_balance" ] in
  let r := dashboard.kpi_strip df s in
  ((∀ col, In col cols ->
           ∃ v, first_cell df col = inr v ∧ sqlite_number v = true) ->
   res r = Returned tt ∧ length (metric_values (evs r)) = 4%nat) ∧
  (res r = Returned tt ->
   ∀ col, In col cols ->
          ∃ v, first_cell df col = inr v ∧ v ≠ VNull ∧
               (col ≠ "total_customers" -> is_numeric v = true)).
Proof.
  intros _. cbn zeta.
  assert (Hnum : ∀ col,
            (∀ col, In col [ "total_customers"; "overall_churn_rate_pct";
                             "avg_balance"; "total_balance" ] ->
                    ∃ v, first_cell df col = inr v ∧ sqlite_number v = true) ->
            In col [ "total_customers"; "overall_churn_rate_pct";
                     "avg_balance"; "total_balance" ] ->
            ∃ v, first_cell df col = inr v ∧ is_numeric v = true).
  { intros col H Hcol. destruct (H col Hcol) as (v & Hv & Hn).
    exists v. split; [done|]. by apply sqlite_number_numeric. }
  unfold dashboard.kpi_strip.
  run. destruct (first_cell df "total_customers") as [f|v1] eqn:H1.
  { run. split; [intros H|done].
    destruct (Hnum "total_customers" H) as (v & Hv & _); [by left|].
    congruence. }
  run. destruct (int_of v1) as [f|n] eqn:H1'.
  { run. split; [intros H|done].
    destruct (Hnum "total_customers" H) as (v & Hv & Hn); [by left|].
    apply int_of_numeric in Hn as [k Hk]. congruence. }
  run. destruct (first_cell df "overall_churn_rate_pct") as [f|v2] eqn:H2.
  { run. split; [intros H|done].
    destruct (Hnum "overall_churn_rate_pct" H) as (v & Hv & _);
      [right; by left|]. congruence. }
  run. destruct (format_f false 1 v2) as [f|t2] eqn:H2'.
  { run. split; [intros H|done].
    destruct (Hnum "overall_churn_rate_pct" H) as (v & Hv & Hn);
      [right; by left|].
    apply (format_f_numeric false 1) in Hn as [t Ht]. congruence. }
  run. destruct (first_cell df "avg_balance") as [f|v3] eqn:H3.
  { run. split; [intros H|done].
    destruct (Hnum "avg_balance" H) as (v & Hv & _); [do 2 right; by left|].
    congruence. }
  run. destruct (format_f true 2 v3) as [f|t3] eqn:H3'.
  { run. split; [intros H|done].
    destruct (Hnum "avg_balance" H) as (v & Hv & Hn); [do 2 right; by left|].
    apply (format_f_numeric true 2) in Hn as [t Ht]. congruence. }
  run. destruct (first_cell df "total_balance") as [f|v4] eqn:H4.
  { run. split; [intros H|done].
    destruct (Hnum "total_balance" H) as (v & Hv & _); [do 3 right; by left|].
    congruence. }
  run. destruct (format_f true 0 v4) as [f|t4] eqn:H4'.
  { run. split; [intros H|done].
    destruct (Hnum "total_balance" H) as (v & Hv & Hn); [do 3 right; by left|].
    apply (format_f_numeric true 0) in Hn as [t Ht]. congruence. }
  run. split; [intros _; split; reflexivity|]. intros _.
  apply int_of_not_null in H1'.
  apply format_f_not_null in H2' as [? ?], H3' as [? ?], H4' as [? ?].
  intros col [<-|[<-|[<-|[<-|[]]]]]; eexists; (split; [eassumption|]); done.
Qed.

Lemma kpi_strip_renders_numbers_witness :
  let cols := [ "total_customers"; "overall_churn_rate_pct"; "avg_balance";
                "total_balance" ] in
  let r := dashboard.kpi_strip kpi_example no_database in
  len kpi_example = 1%nat ∧
  (∀ col, In col cols ->
          ∃ v, first_cell kpi_example col = inr v ∧ sqlite_number v = true) ∧
  res r = Returned tt ∧ length (metric_values (evs r)) = 4%nat ∧
  ∀ col, In col cols ->
         ∃ v, first_cell kpi_example col = inr v ∧ v ≠ VNull ∧
              (col ≠ "total_customers" -> is_numeric v = true).
Proof.
  cbn zeta.
  assert (H : ∀ col, In col [ "total_customers"; "overall_churn_rate_pct";
                              "avg_balance"; "total_balance" ] ->
                ∃ v, first_cell kpi_example col = inr v ∧
                     sqlite_number v = true).
  { intros col [<-|[<-|[<-|[<-|[]]]]]; eexists; split; reflexivity. }
  destruct (kpi_strip_renders_numbers kpi_example no_database eq_refl)
    as [Hif Honly].
  destruct (Hif H) as [Hres Hlen].
  split; [reflexivity|]. split; [exact H|]. split; [exact Hres|].
  split; [exact Hlen|]. exact (Honly Hres).
Defined.



(** ** The dashboard and the exporter on one directory *)

Lemma view_answer_empty_database E view :
  ∃ f, view_answer E (Some ∅) view = inl f.
Proof.
  unfold view_answer. destruct (query_fault E view); [by eauto|].
  cbn. rewrite lookup_empty. by eauto.
Qed.

Lemma exports_empty_database E view : exports E (Some ∅) view = false.
Proof.
  unfold exports, export_outcome.
  by destruct (view_answer_empty_database E view) as [f ->].
Qed.

Lemma filter_none {A} (f : A -> bool) l :
  (∀ x, f x = false) -> List.filter f l = [].
Proof.
  intros H. induction l as [|x l IH]; [done|].
  cbn [List.filter]. by rewrite H.
Qed.

Lemma script_without_database E picked s :
  db s = None -> connect_fault E = None -> cache s !! "overall_kpis" = None ->
  ∃ f, final (dashboard.script E picked s) =
       set_cache (<["overall_kpis" :=
                      (empty_frame, [loading_error "overall_kpis" f])]> (cache s))
                 (connected s).
Proof.
  intros Hdb Hconn Hc.
  destruct (view_answer_no_database E s "overall_kpis" Hdb) as [f Hf].
  exists f.
  assert (Hrun : dashboard.load_view E "overall_kpis" s =
    Run (Returned empty_frame)
        (set_cache (<["overall_kpis" :=
                        (empty_frame, [loading_error "overall_kpis" f])]> (cache s))
                   (connected s))
        [Connect (next_conn s) database_path;
         Query (next_conn s) (sql_of "overall_kpis");
         Show (loading_error "overall_kpis" f)]).
  { rewrite load_view_miss, load_view_body_run by done.
    rewrite Hconn. cbn zeta. by rewrite Hf. }
  unfold dashboard.script, dashboard.report. run.
  rewrite run_try, bind_run, Hrun. run.
  change (is_empty empty_frame) with true. cbv iota. run.
  cbn [isinstance]. cbn [res final evs after]. reflexivity.
Qed.

(** X19: the dashboard creates the database file it did not find, and the
    exporter is misled by it: after one run of the dashboard in a
    directory without bank.db, on a platform where connecting succeeds,
    the file exists and holds no view; the exporter then does not report
    a missing database but connects, writes no file and reports that 0 of
    the 11 views were exported. *)
Theorem dashboard_then_exporter E picked s :
  db s = None -> connect_fault E = None -> cache s !! "overall_kpis" = None ->
  mkdir_fails E s = None ->
  let s' := final (dashboard.script E picked s) in
  let r := export_views.main E s' in
  db s' = Some ∅ ∧ res r = Returned tt ∧
  In (Connect (next_conn s') export_views.DB_FILE) (evs r) ∧
  written (evs r) = [] ∧ files (final r) = files s ∧
  In (export_views.summary_line 0) (printed (evs r)).
Proof.
  intros Hdb Hconn Hc Hmk. cbn zeta.
  destruct (script_without_database E picked s Hdb Hconn Hc) as [f ->].
  set (s' := set_cache _ (connected s)).
  assert (Hdb' : db s' = Some ∅) by (cbn; by rewrite Hdb).
  assert (Hs : is_Some (db s')) by (by rewrite Hdb').
  assert (Hmk' : mkdir_fails E s' = None) by exact Hmk.
  assert (Hnone : List.filter (exports E (Some (default ∅ (db s'))))
                    export_views.VIEWS = []).
  { apply filter_none. intros v. rewrite Hdb'. apply exports_empty_database. }
  split; [done|].
  split; [by rewrite main_exports|].
  split.
  { rewrite main_exports by done. cbn [evs].
    rewrite !in_app_iff. do 3 right. left. by left. }
  split; [by rewrite main_exports_written, Hnone|].
  split.
  { rewrite main_exports by done. cbn [final].
    rewrite Hdb'. cbn [default].
    change (files (closed ?c (set_files ?fs ?st))) with fs.
    assert (Hkeep : ∀ vs fs, fold_left (export_file E (Some ∅)) vs fs = fs).
    { induction vs as [|v vs IH]; intros fs; [done|].
      cbn [fold_left]. rewrite <- (IH fs) at 2. f_equal.
      unfold export_file.
      destruct (export_leaves E (Some ∅) v) as [content|] eqn:Hl; [|done].
      destruct (export_leaves_answered E (Some ∅) v) as [df Hdf]; [by eauto|].
      destruct (view_answer_empty_database E v) as [f' Hf]. congruence. }
    by rewrite Hkeep. }
  rewrite main_exports by done. cbn [evs]. rewrite Hnone.
  rewrite !printed_app, !in_app_iff. do 5 right.
  cbn [printed omap list_omap length]. right. by left.
Qed.

Lemma dashboard_then_exporter_witness :
  let s' := final (dashboard.script healthy "Overall KPIs" no_database) in
  let r := export_views.main healthy s' in
  db s' = Some ∅ ∧ res r = Returned tt ∧
  In (Connect (next_conn s') export_views.DB_FILE) (evs r) ∧
  written (evs r) = [] ∧ files (final r) = files no_database ∧
  In (export_views.summary_line 0) (printed (evs r)).
Proof.
  exact (dashboard_then_exporter healthy "Overall KPIs" no_database
           eq_refl eq_refl eq_refl eq_refl).
Defined.

(** ** The data tables and the exported files *)

Lemma lookup_option_label label opts view :
  dashboard.lookup_option label opts = Some view -> label ∈ opts.*1.
Proof.
  induction opts as [|[l v] opts IH]; [done|].
  cbn [dashboard.lookup_option fmap list_fmap fst].
  destruct (String.eqb label l) eqn:Hl.
  - apply String.eqb_eq in Hl as ->. intros _. by left.
  - intros H. right. by apply IH.
Qed.

Lemma tab5_run E label view s df s1 es1 :
  dashboard.lookup_option label dashboard.view_options = Some view ->
  dashboard.load_view E view s = Run (Returned df) s1 es1 ->
  dashboard.tab5 E label s =
  Run (Returned tt) s1
      ([ Show (st_header "Data Tables");
         Show (st_selectbox "Select a view to display:"
                 (dashboard.view_options.*1)) ] ++ es1 ++
       if is_empty df then []
       else [ Show (st_dataframe df);
              Show (st_download_button "📥 Download as CSV" (to_csv E df)
                      (view +:+ ".csv") "text/csv") ]).
Proof.
  intros Hview Hrun.
  pose proof (lookup_option_label _ _ _ Hview) as Hin.
  unfold dashboard.tab5, dashboard.selectbox.
  rewrite run_bind. run. rewrite (bool_decide_eq_true_2 _ Hin).
  cbn [mbind option_bind]. rewrite Hview.
  rewrite bind_run, Hrun, and_then_returned.
  destruct (is_empty df); cbn [negb]; run;
    unfold after; cbn [res final evs]; by rewrite ?app_nil_r.
Qed.

(** X20: the download button of the data tables offers what the exporter
    writes: for a view picked by its label, not cached, whose query returns
    a frame with rows, the dashboard renders a download button whose data is
    the serialized frame and whose file name is <view>.csv; and if the
    exporter runs on the same directory and can create its folder and write
    that file, the file results/<view>.csv it leaves has exactly that
    content. *)
Theorem download_matches_export E label view s df :
  dashboard.lookup_option label dashboard.view_options = Some view ->
  cache s !! view = None ->
  res (query E view s) = Returned df -> is_empty df = false ->
  is_Some (db s) -> mkdir_fails E s = None ->
  write_fault E (export_views.csv_path_of view) = None ->
  In (Show (st_download_button "📥 Download as CSV" (to_csv E df)
              (view +:+ ".csv") "text/csv"))
     (evs (dashboard.tab5 E label s)) ∧
  files (final (export_views.main E s)) !! export_views.csv_path_of view =
    Some (to_csv E df).
Proof.
  intros Hview Hc Hq Hne Hdb Hmk Hw.
  rewrite query_run in Hq.
  destruct (connect_fault E) as [f|] eqn:Hconn; [done|]. cbn [res] in Hq.
  destruct (view_answer E (db (connected s)) view) as [f|df'] eqn:Hans; [done|].
  injection Hq as ->.
  split.
  - assert (Hrun : dashboard.load_view E view s =
                   Run (Returned df)
                       (set_cache (<[view := (df, [])]> (cache s))
                                  (closed (next_conn s) (connected s)))
                       [Connect (next_conn s) database_path;
                        Query (next_conn s) (sql_of view); Close (next_conn s)]).
    { rewrite load_view_miss, load_view_body_run by done.
      rewrite Hconn. cbn zeta. by rewrite Hans. }
    rewrite (tab5_run E label view s _ _ _ Hview Hrun), Hne. cbn [evs].
    rewrite !in_app_iff. do 2 right. right. by left.
  - rewrite main_exports by done. cbn [final].
    change (files (closed ?c (set_files ?fs ?st))) with fs.
    apply export_files_written.
    + by apply (lookup_option_catalog label).
    + unfold export_outcome. change (db (connected s)) with
        (Some (default ∅ (db s))) in Hans. by rewrite Hans, Hw.
    + intros v' Hv'. apply VIEWS_paths_inj; [|done].
      by apply (lookup_option_catalog label).
Qed.

Lemma download_matches_export_witness :
  let s := world (Some all_views) in
  let df := one_row ["branch"; "churn_rate_pct"] in
  In (Show (st_download_button "📥 Download as CSV" (to_csv healthy df)
              ("branch_performance" +:+ ".csv") "text/csv"))
     (evs (dashboard.tab5 healthy "Branch Performance" s)) ∧
  files (final (export_views.main healthy s)) !!
    export_views.csv_path_of "branch_performance" =
    Some (to_csv healthy df).
Proof.
  cbn zeta.
  assert (Hq : res (query healthy "branch_performance" (world (Some all_views))) =
               Returned (one_row ["branch"; "churn_rate_pct"]))
    by (vm_compute; reflexivity).
  assert (Hdb : is_Some (db (world (Some all_views)))) by (eexists; reflexivity).
  exact (download_matches_export healthy "Branch Performance"
           "branch_performance" (world (Some all_views)) _
           eq_refl eq_refl Hq eq_refl Hdb eq_refl eq_refl).
Defined.
